(** * Resilient-modulus prediction forms: a shallow embedding

    The repository holds three Streamlit scripts:
    - [appbase.py]     (Base variant, model artifact [base_model.pkl]),
    - [appsubgrade.py] (Subgrade variant, [subgrade_model.pkl]),
    - [appbas11.py]    (demo variant, inline formula, no artifact).

    A Streamlit script is re-executed top to bottom on every user
    interaction.  One execution is modelled as a computation in a small
    monad [script] that reads the outside world of that execution (what
    [joblib.load] would return), threads the process-wide resource cache
    of [st.cache_resource], may stop with an uncaught Python exception and
    records, in program order, every element it renders and every call it
    makes to pandas, joblib and the estimator.

    Python floats are IEEE-754 binary64 values, modelled by the Standard
    Library's executable specification of binary floats ([spec_float] at
    precision 53 and maximal exponent 1024).
    Purely decorative calls ([st.set_page_config], [st.markdown],
    [st.title], [st.subheader], [st.columns]) carry no data of the forms and
    are left out of the trace. *)

From Stdlib Require Import String List Bool ZArith Lia SpecFloat.
From stdpp Require Import base option list gmap strings.
Import ListNotations.

Local Open Scope string_scope.
Local Open Scope list_scope.

(** ** Python floats *)

Definition prec : Z := 53.
Definition emax : Z := 1024.

Abbreviation float := spec_float (only parsing).

(** The float an int converts to, and the float [m * 2^e]. *)
Definition of_int (n : Z) : float := binary_normalize prec emax n 0 false.
Definition dyadic (m e : Z) : float := binary_normalize prec emax m e false.
Definition to_int (x : float) : option Z := None.

Definition fadd (x y : float) : float := SFadd prec emax x y.
Definition fsub (x y : float) : float := SFsub prec emax x y.
Definition fmul (x y : float) : float := SFmul prec emax x y.

Declare Scope py_scope.
Delimit Scope py_scope with py.
Bind Scope py_scope with spec_float.
Number Notation spec_float of_int to_int : py_scope.
Infix "+" := fadd : py_scope.
Infix "-" := fsub : py_scope.
Infix "*" := fmul : py_scope.

(** Python's comparisons of a float with a number. *)
Definition gt (x y : float) : bool := SFltb y x.
Definition ge (x y : float) : bool := SFleb y x.

(** [st.number_input(min_value=lo, max_value=hi)] only returns values in
    range; [None] stands for an absent bound. *)
Definition in_range (lo : float) (hi : option float) (x : float) : bool :=
  SFleb lo x &&
  match hi with Some h => SFleb x h | None => true end.

(** ** Python values *)

Module Py.

(** A raised exception object deriving from [Exception]: its class name
    and its argument.  [except Exception as e] catches all of them. *)
Record exn := Exn { exn_class : string; exn_arg : string }.

(** The scalars that travel through the forms. *)
Inductive value :=
| VFloat (x : float)
| VInt (n : Z)
| VStr (s : string).

(** [bool(v)]: a float is falsy iff it compares equal to zero (so both
    signed zeros are falsy and NaN is truthy), an int iff it is 0, a
    string iff it is empty. *)
Definition truthy (v : value) : bool :=
  match v with
  | VFloat x => negb (SFeqb x 0)
  | VInt n => negb (Z.eqb n 0)
  | VStr s => negb (String.eqb s "")
  end.

(** The builtin [all(iterable)]. *)
Fixpoint all (vs : list value) : bool :=
  match vs with
  | [] => true
  | v :: vs' => if truthy v then all vs' else false
  end.

(** An f-string before rendering: literal text, [{x:.2f}] fields and
    [{e}] fields. *)
Inductive fpart :=
| FLit (s : string)
| FFloat2f (x : float)
| FExn (e : exn).

Definition fstring := list fpart.

(** [d[k]] on a dict: the value, or [KeyError]. *)
Definition getitem {V} (d : gmap string V) (k : string) : exn + V :=
  match d !! k with
  | Some v => inr v
  | None => inl (Exn "KeyError" k)
  end.

End Py.

(** ** pandas: a DataFrame built from a dict of columns *)

Module Pd.

(** A dict literal whose insertion order matters: assigning an existing
    key keeps its position and replaces its value. *)
Definition odict := list (string * list Py.value).

Fixpoint setitem (d : odict) (k : string) (v : list Py.value) : odict :=
  match d with
  | [] => [(k, v)]
  | (k', v') :: d' =>
      if String.eqb k' k then (k', v) :: d' else (k', v') :: setitem d' k v
  end.

Definition dict_literal (items : list (string * list Py.value)) : odict :=
  fold_left (fun d kv => setitem d (fst kv) (snd kv)) items [].

(** [pd.DataFrame(d)]: one column per key, in the dict's order. *)
Definition DataFrame := list (string * list Py.value).

Definition columns (df : DataFrame) : list string := map fst df.

(** Number of rows when every column has the same length. *)
Definition has_rows (n : nat) (df : DataFrame) : Prop :=
  Forall (fun col => length (snd col) = n) df.

End Pd.

(** ** The estimator artifact

    The deserialized object is opaque; the forms use one method,
    [predict], which takes a frame and either raises or returns the array
    of predictions.  Inference does not mutate the estimator. *)

Record Model := { predict : Pd.DataFrame -> Py.exn + list float }.

(** ** One execution of a script *)

Module St.

(** Elements a run can render. *)
Inductive element :=
| error (msg : Py.fstring)
| info (msg : Py.fstring)
| warning (msg : Py.fstring)
| success (msg : Py.fstring)
| balloons
| metric (label : string) (value : Py.fstring)
| button (label : string) (disabled : bool)
| expander (label : string)
| dataframe_T (df : Pd.DataFrame)
| code (language : string).

End St.

(** What a run does, in program order. *)
Inductive event :=
| Render (e : St.element)
| CallJoblibLoad (path : string)
| CallDataFrame (df : Pd.DataFrame)
| CallPredict (df : Pd.DataFrame).

(** The outside world during one run: what [joblib.load] does with a
    path (raise, or return the deserialized estimator). *)
Record world := { joblib_load_result : string -> Py.exn + Model }.

(** What [st.cache_resource] keeps for a decorated function of no
    arguments: the returned object and the elements rendered while it ran,
    which are replayed on a cache hit. *)
Record cache_entry :=
  { cached : option Model; replayed : list St.element }.

(** State that outlives a run. *)
Record process := { resource_cache : option cache_entry }.

Definition script (A : Type) : Type :=
  world -> process -> process * list event * (Py.exn + A).

#[global] Instance script_ret : MRet script :=
  fun A (a : A) _ p => (p, [], inr a).

#[global] Instance script_bind : MBind script :=
  fun A B (k : A -> script B) (c : script A) w p =>
    match c w p with
    | (p1, t1, inr a) =>
        match k a w p1 with
        | (p2, t2, r) => (p2, t1 ++ t2, r)
        end
    | (p1, t1, inl e) => (p1, t1, inl e)
    end.

Definition emit (ev : event) : script unit :=
  fun _ p => (p, [ev], inr tt).

Definition render (e : St.element) : script unit := emit (Render e).

(** An expression that may raise. *)
Definition lift {A} (r : Py.exn + A) : script A :=
  fun _ p => (p, [], r).

(** [try: c  except Exception as e: h e]. *)
Definition try_except {A} (c : script A) (h : Py.exn -> script A) : script A :=
  fun w p =>
    match c w p with
    | (p1, t1, inr a) => (p1, t1, inr a)
    | (p1, t1, inl e) =>
        match h e w p1 with
        | (p2, t2, r) => (p2, t1 ++ t2, r)
        end
    end.

Definition rendered (t : list event) : list St.element :=
  omap (fun ev => match ev with Render e => Some e | _ => None end) t.

Definition predict_calls (t : list event) : list Pd.DataFrame :=
  omap (fun ev => match ev with CallPredict df => Some df | _ => None end) t.

Definition frames_built (t : list event) : list Pd.DataFrame :=
  omap (fun ev => match ev with CallDataFrame df => Some df | _ => None end) t.

Definition loads (t : list event) : list string :=
  omap (fun ev => match ev with CallJoblibLoad f => Some f | _ => None end) t.

(** The values shown by [st.metric] under a given label. *)
Definition metrics (label : string) (t : list event) : list Py.fstring :=
  omap (fun ev =>
          match ev with
          | Render (St.metric l v) => if String.eqb l label then Some v else None
          | _ => None
          end) t.

(** [@st.cache_resource] on a function of no arguments: the body runs at
    the first call that returns; its result is then served from the cache
    for the rest of the process. *)
Definition cache_resource (body : script (option Model)) : script (option Model) :=
  fun w p =>
    match resource_cache p with
    | Some entry => (p, map Render (replayed entry), inr (cached entry))
    | None =>
        match body w p with
        | (_, t, inr v) =>
            ({| resource_cache := Some {| cached := v; replayed := rendered t |} |},
             t, inr v)
        | (p1, t, inl e) => (p1, t, inl e)
        end
    end.

(** [joblib.load(path)]. *)
Definition joblib_load (path : string) : script Model :=
  fun w p => (p, [CallJoblibLoad path], joblib_load_result w path).

(** [pd.DataFrame(d)]. *)
Definition pd_DataFrame (d : Pd.odict) : script Pd.DataFrame :=
  emit (CallDataFrame d);; mret d.

(** [model.predict(df)]. *)
Definition call_predict (m : Model) (df : Pd.DataFrame) : script (list float) :=
  emit (CallPredict df);; lift (predict m df).

(** [a[0]] on the returned array. *)
Definition item0 (a : list float) : script float :=
  match a with
  | x :: _ => mret x
  | [] => lift (inl (Py.Exn "IndexError" "index 0 is out of bounds for axis 0 with size 0"))
  end.

(** [st.button(label, disabled=d)]: renders the button and returns whether
    it was clicked; a disabled button cannot be clicked. *)
Definition st_button (label : string) (disabled clicked : bool) : script bool :=
  render (St.button label disabled);; mret (if disabled then false else clicked).

(** ** What appbase.py and appsubgrade.py share verbatim

    The two scripts differ in their fields, their frame and their gate;
    the loader and the predict panel are the same text up to the artifact's
    file name. *)

Module Common.

Import Py.

(** [load_model], lines 35-43 of both scripts. *)
Definition load_model (pkl : string) : script (option Model) :=
  cache_resource
    (try_except
       (model ← joblib_load pkl; mret (Some model))
       (fun e =>
          render (St.error [FLit "Error loading model: "; FExn e]);;
          render (St.info [FLit ("Please make sure '" ++ pkl ++
                                 "' is in the same directory as this app.")]);;
          mret None)).

Definition predict_label : string := "🔮 Predict Resilient Modulus".

(** The [if not all_inputs_filled: ... else: ...] block that ends both
    scripts. *)
Definition predict_panel (pkl : string) (model : option Model)
    (input_data : Pd.DataFrame) (all_inputs_filled clicked : bool) : script unit :=
  if negb all_inputs_filled then
    render (St.warning [FLit "⚠️ Please fill in all input parameters before predicting."]);;
    _ ← st_button predict_label true clicked;
    mret tt
  else
    pressed ← st_button predict_label false clicked;
    if (pressed : bool) then
      match model with
      | Some m =>
          try_except
            (a ← call_predict m input_data;
             prediction ← item0 a;
             render St.balloons;;
             render (St.success [FLit "### ✅ Prediction Successful!"]);;
             render (St.metric "Predicted Resilient Modulus"
                       [FFloat2f prediction; FLit " MPa"]);;
             render (St.expander "📋 View Input Summary");;
             render (St.dataframe_T input_data))
            (fun e =>
               render (St.error [FLit "❌ Prediction error: "; FExn e]);;
               render (St.warning [FLit "Please check if your model expects these exact feature names and order."]))
      | None =>
          render (St.error [FLit ("❌ Model not loaded. Please check that '" ++ pkl ++
                                  "' exists in the app directory.")])
      end
    else mret tt.

End Common.

(** ** appbase.py *)

Module AppBase.

Import Py.

Definition pkl : string := "base_model.pkl".

(** The widget values of one run, named as the script's variables, and
    whether the predict button was clicked. *)
Record widgets := {
  layer_thickness : float;
  no_4_passing : float;
  no_10_passing : float;
  no_40_passing : float;
  no_80_passing : float;
  no_200_passing : float;
  liquid_limit : float;
  plastic_limit : float;
  plasticity_index : float;
  aashto_class_text : string;
  spec_gravity : float;
  max_lab_dry_density : float;
  optimum_lab_moisture : float;
  hydraulic_conductivity : float;
  clicked : bool
}.

Definition aashto_options : list string :=
  ["A-1-a"; "A-1-b"; "A-2-4"; "A-2-6"; "A-2-7"; "A-3"; "A-4"; "A-5"; "A-6"; "A-7-6"].

Definition aashto_encoding : gmap string Z :=
  {[ "A-1-a" := 0; "A-1-b" := 1; "A-2-4" := 2;
     "A-2-6" := 3; "A-2-7" := 4; "A-3" := 5; "A-4" := 6;
     "A-5" := 7; "A-6" := 8; "A-7-6" := 9 ]}%Z.

(** What the widgets can hold: each number within its declared bounds,
    the selection one of the offered options. *)
Definition widgets_ok (ui : widgets) : Prop :=
  in_range 0 None (layer_thickness ui) = true /\
  in_range 0 (Some 100%py) (no_4_passing ui) = true /\
  in_range 0 (Some 100%py) (no_10_passing ui) = true /\
  in_range 0 (Some 100%py) (no_40_passing ui) = true /\
  in_range 0 (Some 100%py) (no_80_passing ui) = true /\
  in_range 0 (Some 100%py) (no_200_passing ui) = true /\
  in_range 0 (Some 100%py) (liquid_limit ui) = true /\
  in_range 0 (Some 100%py) (plastic_limit ui) = true /\
  in_range 0 (Some 100%py) (plasticity_index ui) = true /\
  aashto_class_text ui ∈ aashto_options /\
  in_range 2 (Some (dyadic 7 (-1))) (spec_gravity ui) = true /\
  in_range 1 (Some 3%py) (max_lab_dry_density ui) = true /\
  in_range 0 (Some 50%py) (optimum_lab_moisture ui) = true /\
  in_range 0 None (hydraulic_conductivity ui) = true.

(** The dict handed to [pd.DataFrame], lines 99-114. *)
Definition input_data (ui : widgets) (aashto_class : Z) : Pd.odict :=
  Pd.dict_literal
    [ ("REPR_THICKNESS", [VFloat (layer_thickness ui)]);
      ("NO_4_PASSING", [VFloat (no_4_passing ui)]);
      ("NO_10_PASSING", [VFloat (no_10_passing ui)]);
      ("NO_40_PASSING", [VFloat (no_40_passing ui)]);
      ("NO_80_PASSING", [VFloat (no_80_passing ui)]);
      ("NO_200_PASSING", [VFloat (no_200_passing ui)]);
      ("LIQUID_LIMIT", [VFloat (liquid_limit ui)]);
      ("PLASTIC_LIMIT", [VFloat (plastic_limit ui)]);
      ("PLASTICITY_INDEX", [VFloat (plasticity_index ui)]);
      ("AASHTO_SOIL_CLASS", [VInt aashto_class]);
      ("SPEC_GRAVITY", [VFloat (spec_gravity ui)]);
      ("MAX_LAB_DRY_DENSITY", [VFloat (max_lab_dry_density ui)]);
      ("OPTIMUM_LAB_MOISTURE", [VFloat (optimum_lab_moisture ui)]);
      ("HYDRAULIC_CONDUCTIVITY", [VFloat (hydraulic_conductivity ui)]) ].

(** Lines 120-134. *)
Definition all_inputs_filled (ui : widgets) : bool :=
  gt (layer_thickness ui) 0 &&
  gt (no_4_passing ui) 0 &&
  gt (no_10_passing ui) 0 &&
  gt (no_40_passing ui) 0 &&
  gt (no_80_passing ui) 0 &&
  gt (no_200_passing ui) 0 &&
  gt (liquid_limit ui) 0 &&
  gt (plastic_limit ui) 0 &&
  ge (plasticity_index ui) 0 &&
  gt (spec_gravity ui) 0 &&
  gt (max_lab_dry_density ui) 0 &&
  gt (optimum_lab_moisture ui) 0 &&
  gt (hydraulic_conductivity ui) 0.

(** The encoding step and the assembly, lines 88-114: what the script
    does between reading the widgets and evaluating the gate. *)
Definition assemble (ui : widgets) : script Pd.DataFrame :=
  aashto_class ← lift (getitem aashto_encoding (aashto_class_text ui));
  pd_DataFrame (input_data ui aashto_class).

(** The script, top to bottom. *)
Definition main (ui : widgets) : script unit :=
  base_model ← Common.load_model pkl;
  df ← assemble ui;
  Common.predict_panel pkl base_model df (all_inputs_filled ui) (clicked ui).

End AppBase.


(** ** appsubgrade.py *)

Module AppSubgrade.

Import Py.

Definition pkl : string := "subgrade_model.pkl".

Record widgets := {
  no_4_passing : float;
  no_10_passing : float;
  no_40_passing : float;
  no_80_passing : float;
  no_200_passing : float;
  coarse_sand : float;
  fine_sand : float;
  silt : float;
  clay : float;
  max_lab_dry_density : float;
  optimum_lab_moisture : float;
  liquid_limit : float;
  plastic_limit : float;
  clicked : bool
}.

Definition widgets_ok (ui : widgets) : Prop :=
  in_range 0 (Some 100%py) (no_4_passing ui) = true /\
  in_range 0 (Some 100%py) (no_10_passing ui) = true /\
  in_range 0 (Some 100%py) (no_40_passing ui) = true /\
  in_range 0 (Some 100%py) (no_80_passing ui) = true /\
  in_range 0 (Some 100%py) (no_200_passing ui) = true /\
  in_range 0 (Some 100%py) (coarse_sand ui) = true /\
  in_range 0 (Some 100%py) (fine_sand ui) = true /\
  in_range 0 (Some 100%py) (silt ui) = true /\
  in_range 0 (Some 100%py) (clay ui) = true /\
  in_range 1 (Some 3%py) (max_lab_dry_density ui) = true /\
  in_range 0 (Some 50%py) (optimum_lab_moisture ui) = true /\
  in_range 0 (Some 100%py) (liquid_limit ui) = true /\
  in_range 0 (Some 100%py) (plastic_limit ui) = true.

(** Lines 81-95. *)
Definition input_data (ui : widgets) : Pd.odict :=
  Pd.dict_literal
    [ ("NO_4_PASSING", [VFloat (no_4_passing ui)]);
      ("NO_10_PASSING", [VFloat (no_10_passing ui)]);
      ("NO_40_PASSING", [VFloat (no_40_passing ui)]);
      ("NO_80_PASSING", [VFloat (no_80_passing ui)]);
      ("NO_200_PASSING", [VFloat (no_200_passing ui)]);
      ("COARSE_SAND", [VFloat (coarse_sand ui)]);
      ("FINE_SAND", [VFloat (fine_sand ui)]);
      ("SILT", [VFloat (silt ui)]);
      ("CLAY", [VFloat (clay ui)]);
      ("MAX_LAB_DRY_DENSITY", [VFloat (max_lab_dry_density ui)]);
      ("OPTIMUM_LAB_MOISTURE", [VFloat (optimum_lab_moisture ui)]);
      ("LIQUID_LIMIT", [VFloat (liquid_limit ui)]);
      ("PLASTIC_LIMIT", [VFloat (plastic_limit ui)]) ].

(** Lines 101-115. *)
Definition all_inputs_filled (ui : widgets) : bool :=
  gt (no_4_passing ui) 0 &&
  gt (no_10_passing ui) 0 &&
  gt (no_40_passing ui) 0 &&
  gt (no_80_passing ui) 0 &&
  gt (no_200_passing ui) 0 &&
  ge (coarse_sand ui) 0 &&
  ge (fine_sand ui) 0 &&
  ge (silt ui) 0 &&
  ge (clay ui) 0 &&
  gt (max_lab_dry_density ui) 0 &&
  gt (optimum_lab_moisture ui) 0 &&
  gt (liquid_limit ui) 0 &&
  gt (plastic_limit ui) 0.

Definition assemble (ui : widgets) : script Pd.DataFrame :=
  pd_DataFrame (input_data ui).

Definition main (ui : widgets) : script unit :=
  subgrade_model ← Common.load_model pkl;
  df ← assemble ui;
  Common.predict_panel pkl subgrade_model df (all_inputs_filled ui) (clicked ui).

End AppSubgrade.

(** ** appbas11.py, the demo *)

Module AppBas11.

Import Py.

Record widgets := {
  repr_thickness : float;
  no_4_passing : float;
  no_10_passing : float;
  no_40_passing : float;
  no_80_passing : float;
  no_200_passing : float;
  liquid_limit : float;
  plastic_limit : float;
  plasticity_index : float;
  aashto_soil_class : string;
  spec_gravity : float;
  max_lab_dry_density : float;
  optimum_lab_moisture : float;
  hydraulic_conductivity : float;
  clicked : bool
}.

(** The [options] of the selectbox, line 104. *)
Definition aashto_options : list string :=
  ["A-1-a"; "A-1-b"; "A-2-4"; "A-2-5"; "A-2-6"; "A-2-7"; "A-3"; "A-4"; "A-5";
   "A-6"; "A-7-5"; "A-7-6"].

Definition widgets_ok (ui : widgets) : Prop :=
  in_range 0 None (repr_thickness ui) = true /\
  in_range 0 (Some 100%py) (no_4_passing ui) = true /\
  in_range 0 (Some 100%py) (no_10_passing ui) = true /\
  in_range 0 (Some 100%py) (no_40_passing ui) = true /\
  in_range 0 (Some 100%py) (no_80_passing ui) = true /\
  in_range 0 (Some 100%py) (no_200_passing ui) = true /\
  in_range 0 None (liquid_limit ui) = true /\
  in_range 0 None (plastic_limit ui) = true /\
  in_range 0 None (plasticity_index ui) = true /\
  aashto_soil_class ui ∈ aashto_options /\
  in_range 0 None (spec_gravity ui) = true /\
  in_range 0 None (max_lab_dry_density ui) = true /\
  in_range 0 None (optimum_lab_moisture ui) = true /\
  in_range 0 None (hydraulic_conductivity ui) = true.

(** The list handed to [all], lines 145-150. *)
Definition collected (ui : widgets) : list value :=
  [ VFloat (repr_thickness ui); VFloat (no_4_passing ui); VFloat (no_10_passing ui);
    VFloat (no_40_passing ui); VFloat (no_80_passing ui); VFloat (no_200_passing ui);
    VFloat (liquid_limit ui); VFloat (plastic_limit ui); VFloat (plasticity_index ui);
    VStr (aashto_soil_class ui); VFloat (spec_gravity ui);
    VFloat (max_lab_dry_density ui); VFloat (optimum_lab_moisture ui);
    VFloat (hydraulic_conductivity ui) ].

(** Lines 153-168. *)
Definition input_data (ui : widgets) : Pd.odict :=
  Pd.dict_literal
    [ ("REPR_THICKNESS", [VFloat (repr_thickness ui)]);
      ("NO_4_PASSING", [VFloat (no_4_passing ui)]);
      ("NO_10_PASSING", [VFloat (no_10_passing ui)]);
      ("NO_40_PASSING", [VFloat (no_40_passing ui)]);
      ("NO_80_PASSING", [VFloat (no_80_passing ui)]);
      ("NO_200_PASSING", [VFloat (no_200_passing ui)]);
      ("LIQUID_LIMIT", [VFloat (liquid_limit ui)]);
      ("PLASTIC_LIMIT", [VFloat (plastic_limit ui)]);
      ("PLASTICITY_INDEX", [VFloat (plasticity_index ui)]);
      ("AASHTO_SOIL_CLASS", [VStr (aashto_soil_class ui)]);
      ("SPEC_GRAVITY", [VFloat (spec_gravity ui)]);
      ("MAX_LAB_DRY_DENSITY", [VFloat (max_lab_dry_density ui)]);
      ("OPTIMUM_LAB_MOISTURE", [VFloat (optimum_lab_moisture ui)]);
      ("HYDRAULIC_CONDUCTIVITY", [VFloat (hydraulic_conductivity ui)]) ].

(** Lines 183-189; the int literals are converted to floats, [0.5] is
    [1 * 2^-1], the sum is evaluated left to right. *)
Definition predicted_modulus (ui : widgets) : float :=
  (repr_thickness ui * dyadic 1 (-1) +
   max_lab_dry_density ui * 1000 +
   spec_gravity ui * 500 -
   optimum_lab_moisture ui * 50 +
   no_4_passing ui * 2)%py.

Definition predict_label : string := "🔍 Predict Resilient Modulus".

(** The script from the button on, lines 143-237. *)
Definition main (ui : widgets) : script unit :=
  pressed ← st_button predict_label false (clicked ui);
  if (pressed : bool) then
    if all (collected ui) then
      df ← pd_DataFrame (input_data ui);
      render (St.success [FLit "✅ All required parameters provided!"]);;
      render (St.expander "📋 View Input Summary");;
      render (St.dataframe_T df);;
      render (St.info [FLit "⚠️ **Note:** To get actual predictions, you need to load your trained model. Replace the demo calculation below with your actual model."]);;
      render (St.metric "Predicted Resilient Modulus"
                [FFloat2f (predicted_modulus ui); FLit " MPa"]);;
      render (St.metric "Confidence Level" [FLit "Demo Mode"]);;
      render (St.metric "Model Status" [FLit "Replace with Real Model"]);;
      render (St.warning [FLit "🔧 **Implementation Required:** Load your trained model using `pickle` or `joblib` and replace the demo calculation with `model.predict(input_data)`"]);;
      render (St.expander "💡 How to integrate your model");;
      render (St.code "python")
    else
      render (St.error [FLit "❌ Please fill in all required parameters before making a prediction!"])
  else mret tt.

End AppBas11.

(** ** A process: the script run once per interaction

    Every interaction re-executes the script with the widget values and
    the world of that moment; the process state is handed from run to run.
    A run that stops with an uncaught exception does not end the process. *)

Definition run_result : Type := list event * (Py.exn + unit).

Fixpoint session {W} (main : W -> script unit) (p : process)
    (runs : list (world * W)) : process * list run_result :=
  match runs with
  | [] => (p, [])
  | (w, ui) :: rest =>
      match main ui w p with
      | (p1, t, r) =>
          match session main p1 rest with
          | (p2, rs) => (p2, (t, r) :: rs)
          end
      end
  end.

(** The states of the adapter (section 4.4 of the specification), as the
    process states the loader can produce for an artifact [pkl]:
    nothing cached yet; the estimator cached; [None] cached together with
    the two elements the failed load rendered. *)
Definition fresh : process := {| resource_cache := None |}.

Definition ready (m : Model) : process :=
  {| resource_cache := Some {| cached := Some m; replayed := [] |} |}.

Definition load_error_elements (pkl : string) (e : Py.exn) : list St.element :=
  [St.error [Py.FLit "Error loading model: "; Py.FExn e];
   St.info [Py.FLit ("Please make sure '" ++ pkl ++
                     "' is in the same directory as this app.")]].

Definition unavailable (pkl : string) (e : Py.exn) : process :=
  {| resource_cache :=
       Some {| cached := None; replayed := load_error_elements pkl e |} |}.

(** The three parts of a run's result. *)
Definition final {A} (x : process * list event * (Py.exn + A)) : process := fst (fst x).
Definition trace {A} (x : process * list event * (Py.exn + A)) : list event := snd (fst x).
Definition outcome {A} (x : process * list event * (Py.exn + A)) : Py.exn + A := snd x.

(** The entries of the encoding table as the specification lists them. *)
Definition documented_codes : list (string * Z) :=
  [("A-1-a", 0%Z); ("A-1-b", 1%Z); ("A-2-4", 2%Z); ("A-2-6", 3%Z);
   ("A-2-7", 4%Z); ("A-3", 5%Z); ("A-4", 6%Z); ("A-5", 7%Z); ("A-6", 8%Z);
   ("A-7-6", 9%Z)].

(** ** The schema of section 6 of the specification *)

Module Schema.

Definition base : list string :=
  ["REPR_THICKNESS"; "NO_4_PASSING"; "NO_10_PASSING"; "NO_40_PASSING";
   "NO_80_PASSING"; "NO_200_PASSING"; "LIQUID_LIMIT"; "PLASTIC_LIMIT";
   "PLASTICITY_INDEX"; "AASHTO_SOIL_CLASS"; "SPEC_GRAVITY";
   "MAX_LAB_DRY_DENSITY"; "OPTIMUM_LAB_MOISTURE"; "HYDRAULIC_CONDUCTIVITY"].

Definition subgrade : list string :=
  ["NO_4_PASSING"; "NO_10_PASSING"; "NO_40_PASSING"; "NO_80_PASSING";
   "NO_200_PASSING"; "COARSE_SAND"; "FINE_SAND"; "SILT"; "CLAY";
   "MAX_LAB_DRY_DENSITY"; "OPTIMUM_LAB_MOISTURE"; "LIQUID_LIMIT";
   "PLASTIC_LIMIT"].

End Schema.

(** The messages of the predict panel. *)
Definition fill_in_warning : St.element :=
  St.warning [Py.FLit "⚠️ Please fill in all input parameters before predicting."].

Definition model_not_loaded (pkl : string) : St.element :=
  St.error [Py.FLit ("❌ Model not loaded. Please check that '" ++ pkl ++
                     "' exists in the app directory.")].

Definition prediction_error (e : Py.exn) : St.element :=
  St.error [Py.FLit "❌ Prediction error: "; Py.FExn e].

Definition check_features_warning : St.element :=
  St.warning [Py.FLit "Please check if your model expects these exact feature names and order."].

Definition demo_fill_in_error : St.element :=
  St.error [Py.FLit "❌ Please fill in all required parameters before making a prediction!"].

Definition modulus_label : string := "Predicted Resilient Modulus".

(** What the predict panel of appbase.py and appsubgrade.py leaves in the
    trace, by cases; [predict_panel_eq] shows the panel does exactly this. *)
Definition panel_trace (pkl : string) (model : option Model) (df : Pd.DataFrame)
    (filled clicked : bool) : list event :=
  if filled then
    Render (St.button Common.predict_label false) ::
    (if clicked then
       match model with
       | None => [Render (model_not_loaded pkl)]
       | Some m =>
           CallPredict df ::
           match predict m df with
           | inr (x :: _) =>
               [Render St.balloons;
                Render (St.success [Py.FLit "### ✅ Prediction Successful!"]);
                Render (St.metric modulus_label [Py.FFloat2f x; Py.FLit " MPa"]);
                Render (St.expander "📋 View Input Summary");
                Render (St.dataframe_T df)]
           | inr [] =>
               [Render (prediction_error
                          (Py.Exn "IndexError"
                             "index 0 is out of bounds for axis 0 with size 0"));
                Render check_features_warning]
           | inl e =>
               [Render (prediction_error e); Render check_features_warning]
           end
       end
     else [])
  else
    [Render fill_in_warning; Render (St.button Common.predict_label true)].

(** What the loader leaves behind, by cases; see [load_model_eq]. *)
Definition load_outcome (pkl : string) (w : world) (p : process)
  : process * list event * option Model :=
  match resource_cache p with
  | Some entry => (p, map Render (replayed entry), cached entry)
  | None =>
      match joblib_load_result w pkl with
      | inr m => (ready m, [CallJoblibLoad pkl], Some m)
      | inl e =>
          (unavailable pkl e,
           CallJoblibLoad pkl :: map Render (load_error_elements pkl e), None)
      end
  end.

(** ** Sample inputs, worlds and estimators *)

Module Scenario.

Import Py.

(** 2.65 and 1e-7 as the binary64 values Python reads them as:
    0x1.5333333333333p+1 and 0x1.ad7f29abcaf48p-24. *)
Definition f_2_65 : float := dyadic 5967269506265907 (-51).
Definition f_1e_7 : float := dyadic 7555786372591432 (-76).

(** The end-to-end scenario of the specification for appbase.py. *)
Definition base_inputs : AppBase.widgets :=
  {| AppBase.layer_thickness := 150;
     AppBase.no_4_passing := 90;
     AppBase.no_10_passing := 80;
     AppBase.no_40_passing := 60;
     AppBase.no_80_passing := 40;
     AppBase.no_200_passing := 20;
     AppBase.liquid_limit := 25;
     AppBase.plastic_limit := 15;
     AppBase.plasticity_index := 10;
     AppBase.aashto_class_text := "A-4";
     AppBase.spec_gravity := f_2_65;
     AppBase.max_lab_dry_density := 2;
     AppBase.optimum_lab_moisture := 10;
     AppBase.hydraulic_conductivity := f_1e_7;
     AppBase.clicked := true |}.

(** The same values with a chosen thickness, class and click. *)
Definition base_with (thickness : float) (label : string) (click : bool)
  : AppBase.widgets :=
  {| AppBase.layer_thickness := thickness;
     AppBase.no_4_passing := 90;
     AppBase.no_10_passing := 80;
     AppBase.no_40_passing := 60;
     AppBase.no_80_passing := 40;
     AppBase.no_200_passing := 20;
     AppBase.liquid_limit := 25;
     AppBase.plastic_limit := 15;
     AppBase.plasticity_index := 10;
     AppBase.aashto_class_text := label;
     AppBase.spec_gravity := f_2_65;
     AppBase.max_lab_dry_density := 2;
     AppBase.optimum_lab_moisture := 10;
     AppBase.hydraulic_conductivity := f_1e_7;
     AppBase.clicked := click |}.

(** The defaults of appsubgrade.py with the clay field set to [c]. *)
Definition subgrade_with_clay (c : float) (click : bool) : AppSubgrade.widgets :=
  {| AppSubgrade.no_4_passing := 90;
     AppSubgrade.no_10_passing := 80;
     AppSubgrade.no_40_passing := 60;
     AppSubgrade.no_80_passing := 40;
     AppSubgrade.no_200_passing := 20;
     AppSubgrade.coarse_sand := 25;
     AppSubgrade.fine_sand := 25;
     AppSubgrade.silt := 30;
     AppSubgrade.clay := c;
     AppSubgrade.max_lab_dry_density := 2;
     AppSubgrade.optimum_lab_moisture := 10;
     AppSubgrade.liquid_limit := 25;
     AppSubgrade.plastic_limit := 15;
     AppSubgrade.clicked := click |}.

(** The defaults of appbas11.py with a chosen plasticity index, class and
    hydraulic conductivity. *)
Definition demo_with (pi : float) (class : string) (k : float) : AppBas11.widgets :=
  {| AppBas11.repr_thickness := 150;
     AppBas11.no_4_passing := 90;
     AppBas11.no_10_passing := 80;
     AppBas11.no_40_passing := 60;
     AppBas11.no_80_passing := 40;
     AppBas11.no_200_passing := 20;
     AppBas11.liquid_limit := 25;
     AppBas11.plastic_limit := 15;
     AppBas11.plasticity_index := pi;
     AppBas11.aashto_soil_class := class;
     AppBas11.spec_gravity := f_2_65;
     AppBas11.max_lab_dry_density := 2;
     AppBas11.optimum_lab_moisture := 10;
     AppBas11.hydraulic_conductivity := k;
     AppBas11.clicked := true |}.

(** The row the specification expects for [base_inputs]. *)
Definition base_row : Pd.DataFrame :=
  [ ("REPR_THICKNESS", [VFloat 150]);
    ("NO_4_PASSING", [VFloat 90]);
    ("NO_10_PASSING", [VFloat 80]);
    ("NO_40_PASSING", [VFloat 60]);
    ("NO_80_PASSING", [VFloat 40]);
    ("NO_200_PASSING", [VFloat 20]);
    ("LIQUID_LIMIT", [VFloat 25]);
    ("PLASTIC_LIMIT", [VFloat 15]);
    ("PLASTICITY_INDEX", [VFloat 10]);
    ("AASHTO_SOIL_CLASS", [VInt 6]);
    ("SPEC_GRAVITY", [VFloat f_2_65]);
    ("MAX_LAB_DRY_DENSITY", [VFloat 2]);
    ("OPTIMUM_LAB_MOISTURE", [VFloat 10]);
    ("HYDRAULIC_CONDUCTIVITY", [VFloat f_1e_7]) ].

(** A thickness of 2^1000 mm: within the widget's bounds (it has no
    maximum), beyond the float32 range. *)
Definition huge : float := dyadic 1 1000.

(** No artifact on disk. *)
Definition artifact_absent : world :=
  {| joblib_load_result :=
       fun path => inl (Exn "FileNotFoundError" path) |}.

(** An artifact that deserializes to [m]. *)
Definition artifact (m : Model) : world :=
  {| joblib_load_result := fun _ => inr m |}.

Definition cell_too_large (v : value) : bool :=
  match v with
  | VFloat x => SFltb (dyadic 16777215 104) (SFabs x)
  | _ => false
  end.

(** An estimator for the Base schema that, as tree ensembles do, rejects
    a frame with other columns or with a cell beyond the float32 range,
    and otherwise answers 42. *)
Definition base_estimator : Model :=
  {| predict := fun df =>
       if negb (bool_decide (Pd.columns df = Schema.base)) then
         inl (Exn "ValueError" "The feature names should match those that were passed during fit.")
       else if existsb (fun col => existsb cell_too_large (snd col)) df then
         inl (Exn "ValueError" "Input contains NaN, infinity or a value too large for dtype('float32').")
       else inr [42%py] |}.

(** The same for the Subgrade schema. *)
Definition subgrade_estimator : Model :=
  {| predict := fun df =>
       if negb (bool_decide (Pd.columns df = Schema.subgrade)) then
         inl (Exn "ValueError" "The feature names should match those that were passed during fit.")
       else if existsb (fun col => existsb cell_too_large (snd col)) df then
         inl (Exn "ValueError" "Input contains NaN, infinity or a value too large for dtype('float32').")
       else inr [42%py] |}.

End Scenario.

(** What a run in the unavailable state must satisfy: it ends normally,
    deserializes nothing, calls no estimator, shows no prediction, and
    answers a press on the enabled button with the given error. *)
Definition rejects_without_loading (not_loaded : St.element)
    (filled clicked : bool) (res : run_result) : Prop :=
  snd res = inr tt /\
  loads (fst res) = [] /\
  predict_calls (fst res) = [] /\
  metrics modulus_label (fst res) = [] /\
  (filled = true -> clicked = true -> Render not_loaded ∈ fst res).

(** The paths handed to [joblib.load] over a whole session, in order. *)
Definition session_loads (rs : list run_result) : list string :=
  concat (map (fun res => loads (fst res)) rs).

(** The widget values of the demo read as widget values of appbase.py:
    the two forms collect the same fourteen quantities. *)
Definition demo_as_base (ui : AppBas11.widgets) : AppBase.widgets :=
  {| AppBase.layer_thickness := AppBas11.repr_thickness ui;
     AppBase.no_4_passing := AppBas11.no_4_passing ui;
     AppBase.no_10_passing := AppBas11.no_10_passing ui;
     AppBase.no_40_passing := AppBas11.no_40_passing ui;
     AppBase.no_80_passing := AppBas11.no_80_passing ui;
     AppBase.no_200_passing := AppBas11.no_200_passing ui;
     AppBase.liquid_limit := AppBas11.liquid_limit ui;
     AppBase.plastic_limit := AppBas11.plastic_limit ui;
     AppBase.plasticity_index := AppBas11.plasticity_index ui;
     AppBase.aashto_class_text := AppBas11.aashto_soil_class ui;
     AppBase.spec_gravity := AppBas11.spec_gravity ui;
     AppBase.max_lab_dry_density := AppBas11.max_lab_dry_density ui;
     AppBase.optimum_lab_moisture := AppBas11.optimum_lab_moisture ui;
     AppBase.hydraulic_conductivity := AppBas11.hydraulic_conductivity ui;
     AppBase.clicked := AppBas11.clicked ui |}.

(** An estimator that returns an empty array. *)
Definition silent_estimator : Model := {| predict := fun _ => inr [] |}.

(** * Properties *)

(** ** The constants are the floats Python reads *)

(** [f_2_65] and [f_1e_7] are in normal form and within half a unit in the
    last place of 2.65 = 265/100 and of 1e-7 = 1/10^7. *)
Example decimal_constants_are_nearest :
  Scenario.f_2_65 = S754_finite false 5967269506265907 (-51) /\
  (2 * Z.abs (100 * 5967269506265907 - 265 * 2 ^ 51) <= 100)%Z /\
  Scenario.f_1e_7 = S754_finite false 7555786372591432 (-76) /\
  (2 * Z.abs (10 ^ 7 * 7555786372591432 - 2 ^ 76) <= 10 ^ 7)%Z.
Proof. repeat split; vm_compute; congruence. Qed.

(** ** Unfolding a run *)

Ltac unfold_script :=
  unfold Common.load_model, Common.predict_panel, cache_resource, try_except,
    st_button, call_predict, item0, pd_DataFrame, joblib_load, render, emit, lift,
    mbind, script_bind, mret, script_ret in *.

(** Membership in a literal list. *)
Ltac in_list :=
  cbn; repeat first [apply list_elem_of_here | apply list_elem_of_further].

Ltac not_in_list :=
  let H := fresh "H" in
  intros H;
  repeat (apply elem_of_cons in H as [H|H]; [discriminate H|]);
  inversion H.

Lemma replay_no_calls (els : list St.element) :
  frames_built (map Render els) = [] /\
  predict_calls (map Render els) = [] /\
  loads (map Render els) = [].
Proof.
  induction els as [|el els (IHf & IHp & IHl)]; [now repeat split|].
  repeat split; cbn; assumption.
Qed.

(** The loader in closed form: a cache hit replays, a miss deserializes
    once and keeps whatever came of it; it never raises. *)
Lemma load_model_eq (pkl : string) (w : world) (p : process) :
  Common.load_model pkl w p =
  (fst (fst (load_outcome pkl w p)), snd (fst (load_outcome pkl w p)),
   inr (snd (load_outcome pkl w p))).
Proof.
  unfold_script. unfold load_outcome.
  destruct (resource_cache p); [reflexivity|].
  destruct (joblib_load_result w pkl); reflexivity.
Qed.

(** The predict panel in closed form: it never raises and never touches
    the process state. *)
Lemma predict_panel_eq (pkl : string) (model : option Model) (df : Pd.DataFrame)
    (filled clicked : bool) (w : world) (p : process) :
  Common.predict_panel pkl model df filled clicked w p =
  (p, panel_trace pkl model df filled clicked, inr tt).
Proof.
  unfold_script. unfold panel_trace.
  destruct filled; [|reflexivity].
  destruct clicked; [|reflexivity].
  destruct model as [m|]; [|reflexivity].
  cbn. destruct (predict m df) as [e|[|x a]]; reflexivity.
Qed.

(** Every selectable class of appbase.py has a code. *)
Lemma base_option_encoded (label : string) :
  label ∈ AppBase.aashto_options ->
  exists n : Z, AppBase.aashto_encoding !! label = Some n /\ (0 <= n <= 9)%Z.
Proof.
  unfold AppBase.aashto_options. intros H.
  repeat (apply elem_of_cons in H as [->|H];
          [eexists; split; [reflexivity|lia]|]).
  inversion H.
Qed.

(** appbase.py, one run, in closed form. *)
Lemma base_main_eq (ui : AppBase.widgets) (n : Z) (w : world) (p : process) :
  AppBase.aashto_encoding !! AppBase.aashto_class_text ui = Some n ->
  AppBase.main ui w p =
  (fst (fst (load_outcome AppBase.pkl w p)),
   snd (fst (load_outcome AppBase.pkl w p)) ++
   CallDataFrame (AppBase.input_data ui n) ::
   panel_trace AppBase.pkl (snd (load_outcome AppBase.pkl w p))
     (AppBase.input_data ui n) (AppBase.all_inputs_filled ui) (AppBase.clicked ui),
   inr tt).
Proof.
  intros Hn. unfold AppBase.main, AppBase.assemble.
  unfold mbind at 1, script_bind. rewrite load_model_eq.
  destruct (load_outcome AppBase.pkl w p) as [[p1 t1] m]. cbn [fst snd].
  unfold mbind at 1, script_bind.
  unfold mbind at 1, script_bind, lift, Py.getitem. rewrite Hn.
  unfold pd_DataFrame, emit, mbind, script_bind, mret, script_ret.
  rewrite predict_panel_eq. reflexivity.
Qed.

(** appsubgrade.py, one run, in closed form. *)
Lemma subgrade_main_eq (ui : AppSubgrade.widgets) (w : world) (p : process) :
  AppSubgrade.main ui w p =
  (fst (fst (load_outcome AppSubgrade.pkl w p)),
   snd (fst (load_outcome AppSubgrade.pkl w p)) ++
   CallDataFrame (AppSubgrade.input_data ui) ::
   panel_trace AppSubgrade.pkl (snd (load_outcome AppSubgrade.pkl w p))
     (AppSubgrade.input_data ui) (AppSubgrade.all_inputs_filled ui)
     (AppSubgrade.clicked ui),
   inr tt).
Proof.
  unfold AppSubgrade.main, AppSubgrade.assemble.
  unfold mbind at 1, script_bind. rewrite load_model_eq.
  destruct (load_outcome AppSubgrade.pkl w p) as [[p1 t1] m]. cbn [fst snd].
  unfold pd_DataFrame, emit, mbind, script_bind, mret, script_ret.
  rewrite predict_panel_eq. reflexivity.
Qed.

Lemma frames_built_app (t1 t2 : list event) :
  frames_built (t1 ++ t2) = frames_built t1 ++ frames_built t2.
Proof. apply omap_app. Qed.

Lemma predict_calls_app (t1 t2 : list event) :
  predict_calls (t1 ++ t2) = predict_calls t1 ++ predict_calls t2.
Proof. apply omap_app. Qed.

Lemma loads_app (t1 t2 : list event) :
  loads (t1 ++ t2) = loads t1 ++ loads t2.
Proof. apply omap_app. Qed.

(** The loader builds no frame and calls no estimator. *)
Lemma load_outcome_no_frames (pkl : string) (w : world) (p : process) :
  frames_built (snd (fst (load_outcome pkl w p))) = [] /\
  predict_calls (snd (fst (load_outcome pkl w p))) = [].
Proof.
  unfold load_outcome.
  destruct (resource_cache p) as [entry|].
  - cbn [fst snd]. split; apply replay_no_calls.
  - destruct (joblib_load_result w pkl); now split.
Qed.

(** The predict panel builds no frame. *)
Lemma panel_no_frames pkl model df filled click :
  frames_built (panel_trace pkl model df filled click) = [].
Proof.
  unfold panel_trace.
  destruct filled, click, model as [m|]; try reflexivity.
  cbn. destruct (predict m df) as [e|[|x a]]; reflexivity.
Qed.

(** ** The assembled record *)

(** C1. Whenever the gate of a variant accepts the widget values, the run
    builds exactly one frame; it has one row, and its columns are, in
    order, those of section 6: the fourteen Base columns in appbase.py
    (and in the demo), the thirteen Subgrade columns in appsubgrade.py. *)
Theorem assembled_record_has_schema :
  (forall (ui : AppBase.widgets) (w : world) (p : process),
      AppBase.aashto_class_text ui ∈ AppBase.aashto_options ->
      AppBase.all_inputs_filled ui = true ->
      exists df,
        frames_built (trace (AppBase.main ui w p)) = [df] /\
        Pd.columns df =
          ["REPR_THICKNESS"; "NO_4_PASSING"; "NO_10_PASSING"; "NO_40_PASSING";
           "NO_80_PASSING"; "NO_200_PASSING"; "LIQUID_LIMIT"; "PLASTIC_LIMIT";
           "PLASTICITY_INDEX"; "AASHTO_SOIL_CLASS"; "SPEC_GRAVITY";
           "MAX_LAB_DRY_DENSITY"; "OPTIMUM_LAB_MOISTURE";
           "HYDRAULIC_CONDUCTIVITY"] /\
        Pd.has_rows 1 df) /\
  (forall (ui : AppSubgrade.widgets) (w : world) (p : process),
      AppSubgrade.all_inputs_filled ui = true ->
      exists df,
        frames_built (trace (AppSubgrade.main ui w p)) = [df] /\
        Pd.columns df =
          ["NO_4_PASSING"; "NO_10_PASSING"; "NO_40_PASSING"; "NO_80_PASSING";
           "NO_200_PASSING"; "COARSE_SAND"; "FINE_SAND"; "SILT"; "CLAY";
           "MAX_LAB_DRY_DENSITY"; "OPTIMUM_LAB_MOISTURE"; "LIQUID_LIMIT";
           "PLASTIC_LIMIT"] /\
        Pd.has_rows 1 df) /\
  (forall (ui : AppBas11.widgets) (w : world) (p : process),
      AppBas11.clicked ui = true ->
      Py.all (AppBas11.collected ui) = true ->
      exists df,
        frames_built (trace (AppBas11.main ui w p)) = [df] /\
        Pd.columns df = Schema.base /\
        Pd.has_rows 1 df).
Proof.
  split; [|split].
  - intros ui w p Hsel _.
    destruct (base_option_encoded _ Hsel) as (n & Hn & _).
    exists (AppBase.input_data ui n).
    rewrite (base_main_eq ui n w p Hn). unfold trace. cbn [fst snd].
    rewrite frames_built_app. cbn.
    rewrite (proj1 (load_outcome_no_frames _ _ _)), panel_no_frames.
    repeat split. repeat constructor.
  - intros ui w p _.
    exists (AppSubgrade.input_data ui).
    rewrite subgrade_main_eq. unfold trace. cbn [fst snd].
    rewrite frames_built_app. cbn.
    rewrite (proj1 (load_outcome_no_frames _ _ _)), panel_no_frames.
    repeat split. repeat constructor.
  - intros ui w p Hc Hall.
    exists (AppBas11.input_data ui).
    unfold AppBas11.main. unfold_script. rewrite Hc, Hall.
    repeat split. repeat constructor.
Qed.

Lemma assembled_record_has_schema_witness :
  exists df,
    frames_built (trace (AppBase.main Scenario.base_inputs
                           Scenario.artifact_absent fresh)) = [df] /\
    Pd.columns df = Schema.base /\
    Pd.has_rows 1 df.
Proof.
  apply (proj1 assembled_record_has_schema).
  - unfold AppBase.aashto_options. in_list.
  - reflexivity.
Defined.

(** ** The class encoding of appbase.py *)

Lemma encoding_entries (label : string) (n : Z) :
  AppBase.aashto_encoding !! label = Some n <-> (label, n) ∈ documented_codes.
Proof.
  unfold AppBase.aashto_encoding, documented_codes. split.
  - intros E.
    repeat (apply lookup_insert_Some in E as [[<- <-]|[_ E]]; [set_solver|]).
    apply lookup_singleton_Some in E as [<- <-]. set_solver.
  - intros H.
    repeat (apply elem_of_cons in H as [H|H]; [injection H as -> ->; reflexivity|]).
    inversion H.
Qed.

Lemma getitem_inr {V} (d : gmap string V) (k : string) (v : V) :
  Py.getitem d k = inr v <-> d !! k = Some v.
Proof.
  unfold Py.getitem. destruct (d !! k); split; congruence.
Qed.

(** C2. The encoding of appbase.py sends each of the ten documented
    labels to its documented integer and has no other entry; subscripting
    it with "A-2-5" or "A-7-5" raises KeyError, and a run that reached the
    lookup with one of them stops there, before any frame is built. *)
Theorem aashto_encoding_is_documented_table :
  Py.getitem AppBase.aashto_encoding "A-1-a" = inr 0%Z /\
  Py.getitem AppBase.aashto_encoding "A-1-b" = inr 1%Z /\
  Py.getitem AppBase.aashto_encoding "A-2-4" = inr 2%Z /\
  Py.getitem AppBase.aashto_encoding "A-2-6" = inr 3%Z /\
  Py.getitem AppBase.aashto_encoding "A-2-7" = inr 4%Z /\
  Py.getitem AppBase.aashto_encoding "A-3" = inr 5%Z /\
  Py.getitem AppBase.aashto_encoding "A-4" = inr 6%Z /\
  Py.getitem AppBase.aashto_encoding "A-5" = inr 7%Z /\
  Py.getitem AppBase.aashto_encoding "A-6" = inr 8%Z /\
  Py.getitem AppBase.aashto_encoding "A-7-6" = inr 9%Z /\
  Py.getitem AppBase.aashto_encoding "A-2-5" = inl (Py.Exn "KeyError" "A-2-5") /\
  Py.getitem AppBase.aashto_encoding "A-7-5" = inl (Py.Exn "KeyError" "A-7-5") /\
  (forall (label : string) (n : Z),
      Py.getitem AppBase.aashto_encoding label = inr n <->
      (label, n) ∈ documented_codes) /\
  (forall (ui : AppBase.widgets) (w : world) (p : process),
      AppBase.aashto_class_text ui = "A-2-5" \/
      AppBase.aashto_class_text ui = "A-7-5" ->
      outcome (AppBase.assemble ui w p) =
        inl (Py.Exn "KeyError" (AppBase.aashto_class_text ui)) /\
      frames_built (trace (AppBase.assemble ui w p)) = []).
Proof.
  repeat (split; [reflexivity|]).
  split.
  - intros label n. rewrite getitem_inr. apply encoding_entries.
  - intros ui w p H. unfold AppBase.assemble. unfold_script.
    destruct H as [-> | ->]; split; reflexivity.
Qed.

Lemma aashto_encoding_is_documented_table_witness :
  outcome (AppBase.assemble (Scenario.base_with 150 "A-2-5" true)
             Scenario.artifact_absent fresh) =
    inl (Py.Exn "KeyError" "A-2-5") /\
  frames_built (trace (AppBase.assemble (Scenario.base_with 150 "A-2-5" true)
                         Scenario.artifact_absent fresh)) = [].
Proof.
  apply aashto_encoding_is_documented_table. left. reflexivity.
Defined.

(** ** The gates of appbase.py and appsubgrade.py *)

Lemma gt_ge (x y : float) : gt x y = true -> ge x y = true.
Proof.
  unfold gt, ge, SFltb, SFleb. destruct (SFcompare y x) as [[]|]; congruence.
Qed.

Lemma panel_button (pkl : string) (model : option Model) (df : Pd.DataFrame)
    (filled click : bool) :
  Render (St.button Common.predict_label (negb filled)) ∈
    panel_trace pkl model df filled click.
Proof.
  unfold panel_trace. destruct filled; in_list.
Qed.

(** C3. The gates of appbase.py and appsubgrade.py accept exactly when
    every field passes its own comparison with zero: [>] for the continuous
    quantities, [>=] for the Base plasticity index and for the Subgrade
    coarse sand, fine sand, silt and clay.  A Subgrade input with clay 0.0
    and every other field strictly positive is accepted, and the run then
    renders the predict button enabled. *)
Theorem gates_compare_field_by_field :
  (forall ui : AppBase.widgets,
      AppBase.all_inputs_filled ui = true <->
      gt (AppBase.layer_thickness ui) 0 = true /\
      gt (AppBase.no_4_passing ui) 0 = true /\
      gt (AppBase.no_10_passing ui) 0 = true /\
      gt (AppBase.no_40_passing ui) 0 = true /\
      gt (AppBase.no_80_passing ui) 0 = true /\
      gt (AppBase.no_200_passing ui) 0 = true /\
      gt (AppBase.liquid_limit ui) 0 = true /\
      gt (AppBase.plastic_limit ui) 0 = true /\
      ge (AppBase.plasticity_index ui) 0 = true /\
      gt (AppBase.spec_gravity ui) 0 = true /\
      gt (AppBase.max_lab_dry_density ui) 0 = true /\
      gt (AppBase.optimum_lab_moisture ui) 0 = true /\
      gt (AppBase.hydraulic_conductivity ui) 0 = true) /\
  (forall ui : AppSubgrade.widgets,
      AppSubgrade.all_inputs_filled ui = true <->
      gt (AppSubgrade.no_4_passing ui) 0 = true /\
      gt (AppSubgrade.no_10_passing ui) 0 = true /\
      gt (AppSubgrade.no_40_passing ui) 0 = true /\
      gt (AppSubgrade.no_80_passing ui) 0 = true /\
      gt (AppSubgrade.no_200_passing ui) 0 = true /\
      ge (AppSubgrade.coarse_sand ui) 0 = true /\
      ge (AppSubgrade.fine_sand ui) 0 = true /\
      ge (AppSubgrade.silt ui) 0 = true /\
      ge (AppSubgrade.clay ui) 0 = true /\
      gt (AppSubgrade.max_lab_dry_density ui) 0 = true /\
      gt (AppSubgrade.optimum_lab_moisture ui) 0 = true /\
      gt (AppSubgrade.liquid_limit ui) 0 = true /\
      gt (AppSubgrade.plastic_limit ui) 0 = true) /\
  (forall ui : AppSubgrade.widgets,
      AppSubgrade.clay ui = 0%py ->
      gt (AppSubgrade.no_4_passing ui) 0 = true ->
      gt (AppSubgrade.no_10_passing ui) 0 = true ->
      gt (AppSubgrade.no_40_passing ui) 0 = true ->
      gt (AppSubgrade.no_80_passing ui) 0 = true ->
      gt (AppSubgrade.no_200_passing ui) 0 = true ->
      gt (AppSubgrade.coarse_sand ui) 0 = true ->
      gt (AppSubgrade.fine_sand ui) 0 = true ->
      gt (AppSubgrade.silt ui) 0 = true ->
      gt (AppSubgrade.max_lab_dry_density ui) 0 = true ->
      gt (AppSubgrade.optimum_lab_moisture ui) 0 = true ->
      gt (AppSubgrade.liquid_limit ui) 0 = true ->
      gt (AppSubgrade.plastic_limit ui) 0 = true ->
      AppSubgrade.all_inputs_filled ui = true /\
      forall (w : world) (p : process),
        Render (St.button Common.predict_label false) ∈
          trace (AppSubgrade.main ui w p)).
Proof.
  split; [|split].
  - intros ui. unfold AppBase.all_inputs_filled.
    rewrite !andb_true_iff. tauto.
  - intros ui. unfold AppSubgrade.all_inputs_filled.
    rewrite !andb_true_iff. tauto.
  - intros ui Hclay H4 H10 H40 H80 H200 Hcs Hfs Hsilt Hd Hm Hll Hpl.
    assert (Hg : AppSubgrade.all_inputs_filled ui = true).
    { unfold AppSubgrade.all_inputs_filled.
      rewrite H4, H10, H40, H80, H200, Hd, Hm, Hll, Hpl.
      rewrite (gt_ge _ _ Hcs), (gt_ge _ _ Hfs), (gt_ge _ _ Hsilt), Hclay.
      reflexivity. }
    split; [exact Hg|]. intros w p.
    rewrite subgrade_main_eq. unfold trace. cbn [fst snd].
    apply elem_of_app. right. apply list_elem_of_further.
    replace false with (negb (AppSubgrade.all_inputs_filled ui))
      by (rewrite Hg; reflexivity).
    apply panel_button.
Qed.

Lemma gates_compare_field_by_field_witness :
  AppSubgrade.all_inputs_filled (Scenario.subgrade_with_clay 0 true) = true /\
  forall (w : world) (p : process),
    Render (St.button Common.predict_label false) ∈
      trace (AppSubgrade.main (Scenario.subgrade_with_clay 0 true) w p).
Proof.
  apply gates_compare_field_by_field; reflexivity.
Defined.

(** ** What a run does when the gate rejects *)

Lemma load_model_trace (pkl : string) (w : world) (p : process) :
  trace (Common.load_model pkl w p) = snd (fst (load_outcome pkl w p)).
Proof. rewrite load_model_eq. reflexivity. Qed.

Lemma load_model_final (pkl : string) (w : world) (p : process) :
  final (Common.load_model pkl w p) = fst (fst (load_outcome pkl w p)).
Proof. rewrite load_model_eq. reflexivity. Qed.

(** Against C4 as stated: in appbase.py the frame is built on every run,
    whatever the gate says:
    with the thickness at 0.0 (which the widget allows) the gate rejects,
    and the run has nevertheless called [pd.DataFrame] on the full set of
    fourteen values. *)
Lemma frame_built_although_gate_rejects :
  AppBase.widgets_ok (Scenario.base_with 0 "A-4" false) /\
  AppBase.all_inputs_filled (Scenario.base_with 0 "A-4" false) = false /\
  frames_built
    (trace (AppBase.main (Scenario.base_with 0 "A-4" false)
              Scenario.artifact_absent fresh)) =
    [AppBase.input_data (Scenario.base_with 0 "A-4" false) 6] /\
  ~ (forall (ui : AppBase.widgets) (w : world) (p : process),
        AppBase.widgets_ok ui ->
        AppBase.all_inputs_filled ui = false ->
        frames_built (trace (AppBase.main ui w p)) = []).
Proof.
  assert (Hok : AppBase.widgets_ok (Scenario.base_with 0 "A-4" false)).
  { unfold AppBase.widgets_ok, AppBase.aashto_options.
    repeat split; try reflexivity. in_list. }
  repeat split; try apply Hok.
  intros H.
  specialize (H (Scenario.base_with 0 "A-4" false) Scenario.artifact_absent fresh
                Hok eq_refl).
  discriminate H.
Qed.

(** C4, amended.  When the gate rejects, appbase.py and appsubgrade.py
    have built the frame all the same (it is assembled before the gate is
    evaluated) but do nothing with it: after the loader, the run consists
    of the [pd.DataFrame] call, the warning and the disabled predict
    button, so the estimator is not called and nothing is predicted.  In
    the demo, a press on the button with a rejecting gate renders the
    error message and builds no frame. *)
Theorem rejected_gate_predicts_nothing :
  (forall (ui : AppBase.widgets) (w : world) (p : process),
      AppBase.aashto_class_text ui ∈ AppBase.aashto_options ->
      AppBase.all_inputs_filled ui = false ->
      outcome (AppBase.main ui w p) = inr tt /\
      exists n : Z,
        Py.getitem AppBase.aashto_encoding (AppBase.aashto_class_text ui) = inr n /\
        trace (AppBase.main ui w p) =
          trace (Common.load_model AppBase.pkl w p) ++
          [CallDataFrame (AppBase.input_data ui n);
           Render fill_in_warning;
           Render (St.button Common.predict_label true)]) /\
  (forall (ui : AppSubgrade.widgets) (w : world) (p : process),
      AppSubgrade.all_inputs_filled ui = false ->
      outcome (AppSubgrade.main ui w p) = inr tt /\
      trace (AppSubgrade.main ui w p) =
        trace (Common.load_model AppSubgrade.pkl w p) ++
        [CallDataFrame (AppSubgrade.input_data ui);
         Render fill_in_warning;
         Render (St.button Common.predict_label true)]) /\
  (forall (ui : AppBas11.widgets) (w : world) (p : process),
      AppBas11.clicked ui = true ->
      Py.all (AppBas11.collected ui) = false ->
      outcome (AppBas11.main ui w p) = inr tt /\
      trace (AppBas11.main ui w p) =
        [Render (St.button AppBas11.predict_label false);
         Render demo_fill_in_error]).
Proof.
  split; [|split].
  - intros ui w p Hsel Hgate.
    destruct (base_option_encoded _ Hsel) as (n & Hn & _).
    rewrite (base_main_eq ui n w p Hn), load_model_trace, Hgate.
    split; [reflexivity|].
    exists n. split; [apply getitem_inr, Hn | reflexivity].
  - intros ui w p Hgate.
    rewrite subgrade_main_eq, load_model_trace, Hgate.
    split; reflexivity.
  - intros ui w p Hc Hall.
    unfold AppBas11.main. unfold_script. rewrite Hc, Hall.
    split; reflexivity.
Qed.

Lemma rejected_gate_predicts_nothing_witness :
  outcome (AppBase.main (Scenario.base_with 0 "A-4" false)
             Scenario.artifact_absent fresh) = inr tt /\
  exists n : Z,
    Py.getitem AppBase.aashto_encoding "A-4" = inr n /\
    trace (AppBase.main (Scenario.base_with 0 "A-4" false)
             Scenario.artifact_absent fresh) =
      trace (Common.load_model AppBase.pkl Scenario.artifact_absent fresh) ++
      [CallDataFrame (AppBase.input_data (Scenario.base_with 0 "A-4" false) n);
       Render fill_in_warning;
       Render (St.button Common.predict_label true)].
Proof.
  apply (proj1 rejected_gate_predicts_nothing).
  - unfold AppBase.aashto_options. in_list.
  - reflexivity.
Defined.

(** ** Selectable classes *)

(** Against C5 as stated: neither "A-2-5" nor "A-7-5" can be selected in
    appbase.py, and no selectable class lacks a code. *)
Lemma base_offers_no_unencoded_class :
  ("A-2-5" ∉ AppBase.aashto_options) /\
  ("A-7-5" ∉ AppBase.aashto_options) /\
  ~ (exists label : string,
        label ∈ AppBase.aashto_options /\
        AppBase.aashto_encoding !! label = None).
Proof.
  split; [|split].
  - unfold AppBase.aashto_options. not_in_list.
  - unfold AppBase.aashto_options. not_in_list.
  - intros (label & Hsel & Hnone).
    destruct (base_option_encoded _ Hsel) as (n & Hn & _). congruence.
Qed.

(** C5, amended.  The classes offered by appbase.py are exactly the keys
    of its encoding, so the lookup succeeds for whatever is selected and no
    run of appbase.py stops with an exception.  "A-2-5" and "A-7-5" are
    offered by the demo only, which puts the selected label itself in the
    frame and looks nothing up. *)
Theorem base_selection_always_has_code :
  (forall label : string,
      label ∈ AppBase.aashto_options <->
      exists n : Z, Py.getitem AppBase.aashto_encoding label = inr n) /\
  (forall (ui : AppBase.widgets) (w : world) (p : process),
      AppBase.aashto_class_text ui ∈ AppBase.aashto_options ->
      outcome (AppBase.main ui w p) = inr tt) /\
  "A-2-5" ∈ AppBas11.aashto_options /\
  "A-7-5" ∈ AppBas11.aashto_options /\
  (forall ui : AppBas11.widgets,
      ("AASHTO_SOIL_CLASS", [Py.VStr (AppBas11.aashto_soil_class ui)]) ∈
        AppBas11.input_data ui).
Proof.
  split; [|split; [|split; [|split]]].
  - intros label. split.
    + intros Hsel. destruct (base_option_encoded _ Hsel) as (n & Hn & _).
      exists n. apply getitem_inr, Hn.
    + intros (n & Hn). apply getitem_inr, encoding_entries in Hn.
      unfold documented_codes in Hn. unfold AppBase.aashto_options.
      repeat (apply elem_of_cons in Hn as [Hn|Hn];
              [injection Hn as -> _; in_list|]).
      inversion Hn.
  - intros ui w p Hsel.
    destruct (base_option_encoded _ Hsel) as (n & Hn & _).
    rewrite (base_main_eq ui n w p Hn). reflexivity.
  - unfold AppBas11.aashto_options. in_list.
  - unfold AppBas11.aashto_options. in_list.
  - intros ui. unfold AppBas11.input_data. in_list.
Qed.

Lemma base_selection_always_has_code_witness :
  outcome (AppBase.main Scenario.base_inputs Scenario.artifact_absent fresh) = inr tt.
Proof.
  apply base_selection_always_has_code.
  unfold AppBase.aashto_options. in_list.
Defined.

(** ** The demo: its gate and its formula *)

Lemma all_true_iff (vs : list Py.value) :
  Py.all vs = true <-> Forall (fun v => Py.truthy v = true) vs.
Proof.
  induction vs as [|v vs IH]; cbn.
  - split; [constructor | reflexivity].
  - rewrite Forall_cons. destruct (Py.truthy v).
    + rewrite IH. tauto.
    + split; [discriminate | intros [H _]; discriminate H].
Qed.

(** The demo in closed form, once the button has been pressed. *)
Lemma demo_main_pressed (ui : AppBas11.widgets) (w : world) (p : process) :
  AppBas11.clicked ui = true ->
  AppBas11.main ui w p =
  (p,
   Render (St.button AppBas11.predict_label false) ::
   (if Py.all (AppBas11.collected ui) then
      [CallDataFrame (AppBas11.input_data ui);
       Render (St.success [Py.FLit "✅ All required parameters provided!"]);
       Render (St.expander "📋 View Input Summary");
       Render (St.dataframe_T (AppBas11.input_data ui));
       Render (St.info [Py.FLit "⚠️ **Note:** To get actual predictions, you need to load your trained model. Replace the demo calculation below with your actual model."]);
       Render (St.metric modulus_label
                 [Py.FFloat2f (AppBas11.predicted_modulus ui); Py.FLit " MPa"]);
       Render (St.metric "Confidence Level" [Py.FLit "Demo Mode"]);
       Render (St.metric "Model Status" [Py.FLit "Replace with Real Model"]);
       Render (St.warning [Py.FLit "🔧 **Implementation Required:** Load your trained model using `pickle` or `joblib` and replace the demo calculation with `model.predict(input_data)`"]);
       Render (St.expander "💡 How to integrate your model");
       Render (St.code "python")]
    else [Render demo_fill_in_error]),
   inr tt).
Proof.
  intros Hc. unfold AppBas11.main. unfold_script. rewrite Hc.
  destruct (Py.all (AppBas11.collected ui)); reflexivity.
Qed.

(** C6. The demo's gate accepts exactly when each of the fourteen
    collected values is truthy: every number different from zero, the class
    label not empty.  With the plasticity index at 0.0 a press on the
    button is therefore rejected, whatever the other fields hold: the run
    renders the error message, builds no frame and shows no prediction. *)
Theorem demo_gate_is_all_truthy :
  (forall ui : AppBas11.widgets,
      Py.all (AppBas11.collected ui) = true <->
      SFeqb (AppBas11.repr_thickness ui) 0 = false /\
      SFeqb (AppBas11.no_4_passing ui) 0 = false /\
      SFeqb (AppBas11.no_10_passing ui) 0 = false /\
      SFeqb (AppBas11.no_40_passing ui) 0 = false /\
      SFeqb (AppBas11.no_80_passing ui) 0 = false /\
      SFeqb (AppBas11.no_200_passing ui) 0 = false /\
      SFeqb (AppBas11.liquid_limit ui) 0 = false /\
      SFeqb (AppBas11.plastic_limit ui) 0 = false /\
      SFeqb (AppBas11.plasticity_index ui) 0 = false /\
      AppBas11.aashto_soil_class ui <> "" /\
      SFeqb (AppBas11.spec_gravity ui) 0 = false /\
      SFeqb (AppBas11.max_lab_dry_density ui) 0 = false /\
      SFeqb (AppBas11.optimum_lab_moisture ui) 0 = false /\
      SFeqb (AppBas11.hydraulic_conductivity ui) 0 = false) /\
  (forall (ui : AppBas11.widgets) (w : world) (p : process),
      AppBas11.plasticity_index ui = 0%py ->
      AppBas11.clicked ui = true ->
      Py.all (AppBas11.collected ui) = false /\
      trace (AppBas11.main ui w p) =
        [Render (St.button AppBas11.predict_label false);
         Render demo_fill_in_error] /\
      frames_built (trace (AppBas11.main ui w p)) = [] /\
      metrics modulus_label (trace (AppBas11.main ui w p)) = []).
Proof.
  split.
  - intros ui. rewrite all_true_iff. unfold AppBas11.collected.
    rewrite !Forall_cons, Forall_nil. cbn [Py.truthy].
    rewrite !negb_true_iff, String.eqb_neq. tauto.
  - intros ui w p Hpi Hc.
    assert (Hall : Py.all (AppBas11.collected ui) = false).
    { destruct (Py.all (AppBas11.collected ui)) eqn:E; [|reflexivity].
      apply all_true_iff in E. unfold AppBas11.collected in E.
      rewrite !Forall_cons in E.
      destruct E as (_ & _ & _ & _ & _ & _ & _ & _ & E & _).
      rewrite Hpi in E. discriminate E. }
    rewrite (demo_main_pressed ui w p Hc), Hall.
    repeat split; reflexivity.
Qed.

Lemma demo_gate_is_all_truthy_witness :
  Py.all (AppBas11.collected (Scenario.demo_with 0 "A-4" Scenario.f_1e_7)) = false /\
  trace (AppBas11.main (Scenario.demo_with 0 "A-4" Scenario.f_1e_7)
           Scenario.artifact_absent fresh) =
    [Render (St.button AppBas11.predict_label false);
     Render demo_fill_in_error] /\
  frames_built (trace (AppBas11.main (Scenario.demo_with 0 "A-4" Scenario.f_1e_7)
                         Scenario.artifact_absent fresh)) = [] /\
  metrics modulus_label
    (trace (AppBas11.main (Scenario.demo_with 0 "A-4" Scenario.f_1e_7)
              Scenario.artifact_absent fresh)) = [].
Proof.
  apply demo_gate_is_all_truthy; reflexivity.
Defined.

(** On its default values the formula gives 3080.0, as in Python. *)
Example demo_defaults_give_3080 :
  AppBas11.predicted_modulus (Scenario.demo_with 10 "A-1-a" Scenario.f_1e_7) = 3080%py.
Proof. vm_compute. reflexivity. Qed.

(** C10. What the demo shows as predicted modulus is
    [repr_thickness*0.5 + max_lab_dry_density*1000 + spec_gravity*500 -
    optimum_lab_moisture*50 + no_4_passing*2], computed in binary64 from
    left to right; two accepted inputs that agree on these five fields are
    shown the same value, whatever their other nine fields. *)
Theorem demo_prediction_reads_five_fields :
  (forall (ui : AppBas11.widgets) (w : world) (p : process),
      AppBas11.clicked ui = true ->
      Py.all (AppBas11.collected ui) = true ->
      metrics modulus_label (trace (AppBas11.main ui w p)) =
        [[Py.FFloat2f
            (AppBas11.repr_thickness ui * dyadic 1 (-1) +
             AppBas11.max_lab_dry_density ui * 1000 +
             AppBas11.spec_gravity ui * 500 -
             AppBas11.optimum_lab_moisture ui * 50 +
             AppBas11.no_4_passing ui * 2)%py;
          Py.FLit " MPa"]]) /\
  (forall (ui1 ui2 : AppBas11.widgets) (w1 w2 : world) (p1 p2 : process),
      AppBas11.clicked ui1 = true ->
      AppBas11.clicked ui2 = true ->
      Py.all (AppBas11.collected ui1) = true ->
      Py.all (AppBas11.collected ui2) = true ->
      AppBas11.repr_thickness ui1 = AppBas11.repr_thickness ui2 ->
      AppBas11.max_lab_dry_density ui1 = AppBas11.max_lab_dry_density ui2 ->
      AppBas11.spec_gravity ui1 = AppBas11.spec_gravity ui2 ->
      AppBas11.optimum_lab_moisture ui1 = AppBas11.optimum_lab_moisture ui2 ->
      AppBas11.no_4_passing ui1 = AppBas11.no_4_passing ui2 ->
      metrics modulus_label (trace (AppBas11.main ui1 w1 p1)) =
      metrics modulus_label (trace (AppBas11.main ui2 w2 p2))).
Proof.
  assert (Hone : forall ui w p,
             AppBas11.clicked ui = true ->
             Py.all (AppBas11.collected ui) = true ->
             metrics modulus_label (trace (AppBas11.main ui w p)) =
               [[Py.FFloat2f (AppBas11.predicted_modulus ui); Py.FLit " MPa"]]).
  { intros ui w p Hc Hall.
    rewrite (demo_main_pressed ui w p Hc), Hall. reflexivity. }
  split.
  - exact Hone.
  - intros ui1 ui2 w1 w2 p1 p2 Hc1 Hc2 Ha1 Ha2 Ht Hd Hg Hm Hn.
    rewrite (Hone ui1 w1 p1 Hc1 Ha1), (Hone ui2 w2 p2 Hc2 Ha2).
    unfold AppBas11.predicted_modulus. rewrite Ht, Hd, Hg, Hm, Hn. reflexivity.
Qed.

Lemma demo_prediction_reads_five_fields_witness :
  metrics modulus_label
    (trace (AppBas11.main (Scenario.demo_with 10 "A-1-a" Scenario.f_1e_7)
              Scenario.artifact_absent fresh)) =
  metrics modulus_label
    (trace (AppBas11.main (Scenario.demo_with 5 "A-7-5" 1)
              Scenario.artifact_absent fresh)).
Proof.
  apply demo_prediction_reads_five_fields; reflexivity.
Defined.

(** ** The adapter across runs *)

(** A state that every run leaves as it found it is kept by a whole
    session, and what holds of each such run holds of each run of it. *)
Lemma session_invariant {W} (main : W -> script unit) (p : process)
    (P : world * W -> Prop) (Q : world * W -> run_result -> Prop) :
  (forall w ui, P (w, ui) ->
      final (main ui w p) = p /\
      Q (w, ui) (trace (main ui w p), outcome (main ui w p))) ->
  forall runs, Forall P runs ->
    fst (session main p runs) = p /\
    Forall2 Q runs (snd (session main p runs)).
Proof.
  intros Hrun runs. induction runs as [|[w ui] rest IH]; intros Hall.
  - split; [reflexivity | constructor].
  - apply Forall_cons in Hall as [Hhead Hrest].
    destruct (Hrun w ui Hhead) as [Hp Hq].
    cbn [session].
    destruct (main ui w p) as [[p1 t] r]. unfold final, trace, outcome in *.
    cbn [fst snd] in *. subst p1.
    destruct (IH Hrest) as [IHp IHq].
    destruct (session main p rest) as [p2 rs]. cbn [fst snd] in *.
    split; [exact IHp | constructor; assumption].
Qed.

(** What the first statement of appbase.py and appsubgrade.py leaves is
    what the whole run leaves: nothing after the loader touches the
    process or deserializes. *)
Lemma no_loads_in_panel pkl model df filled click :
  loads (panel_trace pkl model df filled click) = [].
Proof.
  unfold panel_trace.
  destruct filled, click, model as [m|]; try reflexivity.
  cbn. destruct (predict m df) as [e|[|x a]]; reflexivity.
Qed.

(** appbase.py when the selected label has no code: the run stops at the
    lookup. *)
Lemma base_main_keyerror (ui : AppBase.widgets) (w : world) (p : process) :
  AppBase.aashto_encoding !! AppBase.aashto_class_text ui = None ->
  AppBase.main ui w p =
  (fst (fst (load_outcome AppBase.pkl w p)),
   snd (fst (load_outcome AppBase.pkl w p)),
   inl (Py.Exn "KeyError" (AppBase.aashto_class_text ui))).
Proof.
  intros Hn. unfold AppBase.main, AppBase.assemble.
  unfold mbind at 1, script_bind. rewrite load_model_eq.
  destruct (load_outcome AppBase.pkl w p) as [[p1 t1] m]. cbn [fst snd].
  unfold mbind at 1, script_bind.
  unfold mbind at 1, script_bind, lift, Py.getitem. rewrite Hn.
  cbn. now rewrite app_nil_r.
Qed.

Lemma base_main_loader (ui : AppBase.widgets) (w : world) (p : process) :
  final (AppBase.main ui w p) = final (Common.load_model AppBase.pkl w p) /\
  loads (trace (AppBase.main ui w p)) =
    loads (trace (Common.load_model AppBase.pkl w p)).
Proof.
  rewrite load_model_eq.
  destruct (AppBase.aashto_encoding !! AppBase.aashto_class_text ui) as [n|] eqn:E.
  - rewrite (base_main_eq ui n w p E). unfold final, trace. cbn [fst snd].
    split; [reflexivity|].
    rewrite loads_app. cbn. rewrite no_loads_in_panel. now rewrite app_nil_r.
  - rewrite (base_main_keyerror ui w p E). split; reflexivity.
Qed.

Lemma subgrade_main_loader (ui : AppSubgrade.widgets) (w : world) (p : process) :
  final (AppSubgrade.main ui w p) = final (Common.load_model AppSubgrade.pkl w p) /\
  loads (trace (AppSubgrade.main ui w p)) =
    loads (trace (Common.load_model AppSubgrade.pkl w p)).
Proof.
  rewrite subgrade_main_eq, load_model_eq. unfold final, trace. cbn [fst snd].
  split; [reflexivity|].
  rewrite loads_app. cbn. rewrite no_loads_in_panel. now rewrite app_nil_r.
Qed.

(** A failed first load leaves the unavailable state. *)
Lemma failed_load_outcome (pkl : string) (w : world) (e : Py.exn) :
  joblib_load_result w pkl = inl e ->
  load_outcome pkl w fresh =
    (unavailable pkl e,
     CallJoblibLoad pkl :: map Render (load_error_elements pkl e), None).
Proof. intros H. unfold load_outcome. cbn. rewrite H. reflexivity. Qed.

Lemma panel_when_unavailable (pkl : string) (e : Py.exn) (df : Pd.DataFrame)
    (filled clicked : bool) :
  rejects_without_loading (model_not_loaded pkl) filled clicked
    (map Render (load_error_elements pkl e) ++
     CallDataFrame df :: panel_trace pkl None df filled clicked, inr tt).
Proof.
  unfold rejects_without_loading, panel_trace.
  destruct filled, clicked; cbn; repeat split; try reflexivity;
    try discriminate.
  intros _ _. in_list.
Qed.

Lemma unavailable_load_outcome (pkl : string) (w : world) (e : Py.exn) :
  load_outcome pkl w (unavailable pkl e) =
    (unavailable pkl e, map Render (load_error_elements pkl e), None).
Proof. reflexivity. Qed.

Lemma ready_load_outcome (pkl : string) (w : world) (m : Model) :
  load_outcome pkl w (ready m) = (ready m, [], Some m).
Proof. reflexivity. Qed.

(** C7. If [joblib.load] raises in the first run, the exception is caught
    there, the artifact has been opened once, and the process is left in
    the unavailable state, in which the loader returns [None] whatever is
    on disk.  Every later run,
    whatever the widgets hold and whatever is on disk by then, leaves that
    state as it is, ends normally, deserializes nothing, calls no
    estimator, shows no prediction, and answers a press on the enabled
    predict button with the "Model not loaded" error.  This holds of
    appbase.py and of appsubgrade.py. *)
Theorem failed_load_is_kept_and_rejects_predictions :
  (forall (w0 : world) (e : Py.exn) (ui0 : AppBase.widgets),
      joblib_load_result w0 AppBase.pkl = inl e ->
      final (AppBase.main ui0 w0 fresh) = unavailable AppBase.pkl e /\
      (forall w : world,
          outcome (Common.load_model AppBase.pkl w (unavailable AppBase.pkl e)) =
            inr None) /\
      loads (trace (AppBase.main ui0 w0 fresh)) = [AppBase.pkl] /\
      forall runs : list (world * AppBase.widgets),
        Forall (fun r => AppBase.aashto_class_text (snd r) ∈ AppBase.aashto_options)
          runs ->
        fst (session AppBase.main (unavailable AppBase.pkl e) runs) =
          unavailable AppBase.pkl e /\
        Forall2
          (fun r res =>
             rejects_without_loading (model_not_loaded AppBase.pkl)
               (AppBase.all_inputs_filled (snd r)) (AppBase.clicked (snd r)) res)
          runs (snd (session AppBase.main (unavailable AppBase.pkl e) runs))) /\
  (forall (w0 : world) (e : Py.exn) (ui0 : AppSubgrade.widgets),
      joblib_load_result w0 AppSubgrade.pkl = inl e ->
      final (AppSubgrade.main ui0 w0 fresh) = unavailable AppSubgrade.pkl e /\
      (forall w : world,
          outcome (Common.load_model AppSubgrade.pkl w
                     (unavailable AppSubgrade.pkl e)) = inr None) /\
      loads (trace (AppSubgrade.main ui0 w0 fresh)) = [AppSubgrade.pkl] /\
      forall runs : list (world * AppSubgrade.widgets),
        fst (session AppSubgrade.main (unavailable AppSubgrade.pkl e) runs) =
          unavailable AppSubgrade.pkl e /\
        Forall2
          (fun r res =>
             rejects_without_loading (model_not_loaded AppSubgrade.pkl)
               (AppSubgrade.all_inputs_filled (snd r)) (AppSubgrade.clicked (snd r))
               res)
          runs (snd (session AppSubgrade.main (unavailable AppSubgrade.pkl e) runs))).
Proof.
  split.
  - intros w0 e ui0 Hload.
    destruct (base_main_loader ui0 w0 fresh) as [Hf Hl].
    rewrite Hf, Hl, load_model_eq, (failed_load_outcome _ _ _ Hload).
    split; [reflexivity|]. split; [intros w; now rewrite load_model_eq|].
    split; [reflexivity|].
    intros runs Hruns.
    apply (session_invariant AppBase.main (unavailable AppBase.pkl e)
             (fun r => AppBase.aashto_class_text (snd r) ∈ AppBase.aashto_options));
      [|exact Hruns].
    intros w ui Hsel. cbn [snd] in Hsel.
    destruct (base_option_encoded _ Hsel) as (n & Hn & _).
    rewrite (base_main_eq ui n w _ Hn), unavailable_load_outcome.
    unfold final, trace, outcome. cbn [fst snd].
    split; [reflexivity | apply panel_when_unavailable].
  - intros w0 e ui0 Hload.
    destruct (subgrade_main_loader ui0 w0 fresh) as [Hf Hl].
    rewrite Hf, Hl, load_model_eq, (failed_load_outcome _ _ _ Hload).
    split; [reflexivity|]. split; [intros w; now rewrite load_model_eq|].
    split; [reflexivity|].
    intros runs.
    apply (session_invariant AppSubgrade.main (unavailable AppSubgrade.pkl e)
             (fun _ => True));
      [|apply Forall_forall; intros; exact I].
    intros w ui _.
    rewrite subgrade_main_eq, unavailable_load_outcome.
    unfold final, trace, outcome. cbn [fst snd].
    split; [reflexivity | apply panel_when_unavailable].
Qed.

Lemma failed_load_is_kept_and_rejects_predictions_witness :
  final (AppBase.main Scenario.base_inputs Scenario.artifact_absent fresh) =
    unavailable AppBase.pkl (Py.Exn "FileNotFoundError" AppBase.pkl) /\
  rejects_without_loading (model_not_loaded AppBase.pkl) true true
    (trace (AppBase.main Scenario.base_inputs
              (Scenario.artifact Scenario.base_estimator)
              (unavailable AppBase.pkl (Py.Exn "FileNotFoundError" AppBase.pkl))),
     outcome (AppBase.main Scenario.base_inputs
                (Scenario.artifact Scenario.base_estimator)
                (unavailable AppBase.pkl (Py.Exn "FileNotFoundError" AppBase.pkl)))).
Proof.
  destruct (proj1 failed_load_is_kept_and_rejects_predictions
              Scenario.artifact_absent (Py.Exn "FileNotFoundError" AppBase.pkl)
              Scenario.base_inputs eq_refl) as (Hfinal & _ & _ & Hruns).
  split; [exact Hfinal|].
  destruct (Hruns [(Scenario.artifact Scenario.base_estimator, Scenario.base_inputs)])
    as [_ Hall].
  - repeat constructor.
  - apply Forall2_cons_1 in Hall as [Hrun _]. exact Hrun.
Defined.

(** ** The predict boundary *)

(** C8. With the estimator loaded, a press on the enabled predict button
    whose [predict] call raises does not stop the run: the exception is
    caught, the run shows the "Prediction error" message and the advice to
    check feature names and order, shows no prediction, and leaves the
    process as it was; a later press for which [predict] returns shows its
    prediction.  This holds of appbase.py and of appsubgrade.py. *)
Theorem prediction_error_is_caught_and_local :
  (forall (m : Model) (ui : AppBase.widgets) (w : world) (n : Z) (e : Py.exn),
      Py.getitem AppBase.aashto_encoding (AppBase.aashto_class_text ui) = inr n ->
      AppBase.all_inputs_filled ui = true ->
      AppBase.clicked ui = true ->
      predict m (AppBase.input_data ui n) = inl e ->
      outcome (AppBase.main ui w (ready m)) = inr tt /\
      trace (AppBase.main ui w (ready m)) =
        [CallDataFrame (AppBase.input_data ui n);
         Render (St.button Common.predict_label false);
         CallPredict (AppBase.input_data ui n);
         Render (prediction_error e);
         Render check_features_warning] /\
      metrics modulus_label (trace (AppBase.main ui w (ready m))) = [] /\
      final (AppBase.main ui w (ready m)) = ready m /\
      forall (ui' : AppBase.widgets) (w' : world) (n' : Z) (x : float)
             (rest : list float),
        Py.getitem AppBase.aashto_encoding (AppBase.aashto_class_text ui') = inr n' ->
        AppBase.all_inputs_filled ui' = true ->
        AppBase.clicked ui' = true ->
        predict m (AppBase.input_data ui' n') = inr (x :: rest) ->
        metrics modulus_label
          (trace (AppBase.main ui' w' (final (AppBase.main ui w (ready m))))) =
          [[Py.FFloat2f x; Py.FLit " MPa"]]) /\
  (forall (m : Model) (ui : AppSubgrade.widgets) (w : world) (e : Py.exn),
      AppSubgrade.all_inputs_filled ui = true ->
      AppSubgrade.clicked ui = true ->
      predict m (AppSubgrade.input_data ui) = inl e ->
      outcome (AppSubgrade.main ui w (ready m)) = inr tt /\
      trace (AppSubgrade.main ui w (ready m)) =
        [CallDataFrame (AppSubgrade.input_data ui);
         Render (St.button Common.predict_label false);
         CallPredict (AppSubgrade.input_data ui);
         Render (prediction_error e);
         Render check_features_warning] /\
      metrics modulus_label (trace (AppSubgrade.main ui w (ready m))) = [] /\
      final (AppSubgrade.main ui w (ready m)) = ready m /\
      forall (ui' : AppSubgrade.widgets) (w' : world) (x : float)
             (rest : list float),
        AppSubgrade.all_inputs_filled ui' = true ->
        AppSubgrade.clicked ui' = true ->
        predict m (AppSubgrade.input_data ui') = inr (x :: rest) ->
        metrics modulus_label
          (trace (AppSubgrade.main ui' w' (final (AppSubgrade.main ui w (ready m))))) =
          [[Py.FFloat2f x; Py.FLit " MPa"]]).
Proof.
  split.
  - intros m ui w n e Hn Hgate Hclick Hraise.
    apply getitem_inr in Hn.
    rewrite (base_main_eq ui n w _ Hn), ready_load_outcome.
    unfold final, trace, outcome, panel_trace. cbn [fst snd].
    rewrite Hgate, Hclick, Hraise.
    repeat (split; [reflexivity|]).
    intros ui' w' n' x rest Hn' Hgate' Hclick' Hret.
    apply getitem_inr in Hn'.
    rewrite (base_main_eq ui' n' w' _ Hn'), ready_load_outcome.
    unfold panel_trace. cbn [fst snd].
    rewrite Hgate', Hclick', Hret. reflexivity.
  - intros m ui w e Hgate Hclick Hraise.
    rewrite subgrade_main_eq, ready_load_outcome.
    unfold final, trace, outcome, panel_trace. cbn [fst snd].
    rewrite Hgate, Hclick, Hraise.
    repeat (split; [reflexivity|]).
    intros ui' w' x rest Hgate' Hclick' Hret.
    rewrite subgrade_main_eq, ready_load_outcome.
    unfold panel_trace. cbn [fst snd].
    rewrite Hgate', Hclick', Hret. reflexivity.
Qed.

Lemma prediction_error_is_caught_and_local_witness :
  outcome (AppBase.main (Scenario.base_with Scenario.huge "A-4" true)
             Scenario.artifact_absent (ready Scenario.base_estimator)) = inr tt /\
  metrics modulus_label
    (trace (AppBase.main (Scenario.base_with Scenario.huge "A-4" true)
              Scenario.artifact_absent (ready Scenario.base_estimator))) = [] /\
  metrics modulus_label
    (trace (AppBase.main Scenario.base_inputs Scenario.artifact_absent
              (final (AppBase.main (Scenario.base_with Scenario.huge "A-4" true)
                        Scenario.artifact_absent (ready Scenario.base_estimator))))) =
    [[Py.FFloat2f 42; Py.FLit " MPa"]].
Proof.
  destruct (proj1 prediction_error_is_caught_and_local
              Scenario.base_estimator (Scenario.base_with Scenario.huge "A-4" true)
              Scenario.artifact_absent 6%Z
              (Py.Exn "ValueError"
                 "Input contains NaN, infinity or a value too large for dtype('float32').")
              eq_refl eq_refl eq_refl eq_refl)
    as (Hout & _ & Hnone & _ & Hretry).
  split; [exact Hout|]. split; [exact Hnone|].
  apply (Hretry Scenario.base_inputs Scenario.artifact_absent 6%Z 42%py []);
    reflexivity.
Defined.

(** ** The end-to-end scenario of appbase.py *)

(** C9. For the inputs of the scenario, "A-4" is encoded as 6, the gate
    accepts, and the frame is the row of the fourteen given values in
    schema order.  With the estimator available (already cached, or
    loaded in this very run) a press on the predict button builds that
    frame once and calls [predict] exactly once, on that frame; without a
    press [predict] is not called. *)
Theorem base_scenario_row_and_single_call :
  Py.getitem AppBase.aashto_encoding "A-4" = inr 6%Z /\
  AppBase.all_inputs_filled Scenario.base_inputs = true /\
  AppBase.input_data Scenario.base_inputs 6 =
    [ ("REPR_THICKNESS", [Py.VFloat 150]);
      ("NO_4_PASSING", [Py.VFloat 90]);
      ("NO_10_PASSING", [Py.VFloat 80]);
      ("NO_40_PASSING", [Py.VFloat 60]);
      ("NO_80_PASSING", [Py.VFloat 40]);
      ("NO_200_PASSING", [Py.VFloat 20]);
      ("LIQUID_LIMIT", [Py.VFloat 25]);
      ("PLASTIC_LIMIT", [Py.VFloat 15]);
      ("PLASTICITY_INDEX", [Py.VFloat 10]);
      ("AASHTO_SOIL_CLASS", [Py.VInt 6]);
      ("SPEC_GRAVITY", [Py.VFloat Scenario.f_2_65]);
      ("MAX_LAB_DRY_DENSITY", [Py.VFloat 2]);
      ("OPTIMUM_LAB_MOISTURE", [Py.VFloat 10]);
      ("HYDRAULIC_CONDUCTIVITY", [Py.VFloat Scenario.f_1e_7]) ] /\
  (forall (m : Model) (w : world),
      frames_built (trace (AppBase.main Scenario.base_inputs w (ready m))) =
        [Scenario.base_row] /\
      predict_calls (trace (AppBase.main Scenario.base_inputs w (ready m))) =
        [Scenario.base_row]) /\
  (forall m : Model,
      frames_built
        (trace (AppBase.main Scenario.base_inputs (Scenario.artifact m) fresh)) =
        [Scenario.base_row] /\
      predict_calls
        (trace (AppBase.main Scenario.base_inputs (Scenario.artifact m) fresh)) =
        [Scenario.base_row]) /\
  (forall (m : Model) (w : world),
      predict_calls
        (trace (AppBase.main (Scenario.base_with 150 "A-4" false) w (ready m))) = []).
Proof.
  assert (Hn : AppBase.aashto_encoding !! "A-4" = Some 6%Z) by reflexivity.
  split; [reflexivity|]. split; [reflexivity|]. split; [reflexivity|].
  split; [|split].
  - intros m w.
    rewrite (base_main_eq Scenario.base_inputs 6 w _ Hn), ready_load_outcome.
    unfold trace, panel_trace. cbn [fst snd].
    change (AppBase.input_data Scenario.base_inputs 6) with Scenario.base_row.
    change (AppBase.all_inputs_filled Scenario.base_inputs) with true.
    change (AppBase.clicked Scenario.base_inputs) with true.
    cbn iota. destruct (predict m Scenario.base_row) as [e|[|x a]];
      split; reflexivity.
  - intros m.
    rewrite (base_main_eq Scenario.base_inputs 6 _ _ Hn).
    change (load_outcome AppBase.pkl (Scenario.artifact m) fresh)
      with (ready m, [CallJoblibLoad AppBase.pkl], Some m).
    unfold trace, panel_trace. cbn [fst snd].
    change (AppBase.input_data Scenario.base_inputs 6) with Scenario.base_row.
    change (AppBase.all_inputs_filled Scenario.base_inputs) with true.
    change (AppBase.clicked Scenario.base_inputs) with true.
    cbn iota. destruct (predict m Scenario.base_row) as [e|[|x a]];
      split; reflexivity.
  - intros m w.
    rewrite (base_main_eq (Scenario.base_with 150 "A-4" false) 6 w _ Hn),
      ready_load_outcome.
    unfold trace, panel_trace. cbn [fst snd].
    change (AppBase.all_inputs_filled (Scenario.base_with 150 "A-4" false)) with true.
    reflexivity.
Qed.

(** * Further properties of the three scripts *)

(** ** The loader over a session *)

Lemma cached_load_outcome (pkl : string) (w : world) (p : process)
    (entry : cache_entry) :
  resource_cache p = Some entry ->
  load_outcome pkl w p = (p, map Render (replayed entry), cached entry).
Proof. intros H. unfold load_outcome. rewrite H. reflexivity. Qed.

Lemma fresh_load_outcome (pkl : string) (w : world) :
  load_outcome pkl w fresh =
  match joblib_load_result w pkl with
  | inr m => (ready m, [CallJoblibLoad pkl], Some m)
  | inl e =>
      (unavailable pkl e,
       CallJoblibLoad pkl :: map Render (load_error_elements pkl e), None)
  end.
Proof. reflexivity. Qed.

Lemma session_loads_cons (t : list event) (r : Py.exn + unit)
    (rs : list run_result) :
  session_loads ((t, r) :: rs) = loads t ++ session_loads rs.
Proof. reflexivity. Qed.

(** A state that every run keeps, and in which no run deserializes, is
    kept by a whole session, which then deserializes nothing. *)
Lemma session_quiet {W} (main : W -> script unit) (p : process) :
  (forall w ui, final (main ui w p) = p /\ loads (trace (main ui w p)) = []) ->
  forall runs,
    fst (session main p runs) = p /\
    session_loads (snd (session main p runs)) = [].
Proof.
  intros Hrun runs. induction runs as [|[w ui] rest [IHp IHl]].
  - split; reflexivity.
  - destruct (Hrun w ui) as [Hp Hl]. cbn [session].
    destruct (main ui w p) as [[p1 t] r]. unfold final, trace in *.
    cbn [fst snd] in *. subst p1.
    destruct (session main p rest) as [p2 rs]. cbn [fst snd] in *.
    split; [exact IHp|].
    rewrite session_loads_cons, Hl, IHl. reflexivity.
Qed.

Lemma base_run_when_cached (ui : AppBase.widgets) (w : world) (p : process) :
  resource_cache p <> None ->
  final (AppBase.main ui w p) = p /\ loads (trace (AppBase.main ui w p)) = [].
Proof.
  intros Hc. destruct (resource_cache p) as [entry|] eqn:E; [|congruence].
  destruct (base_main_loader ui w p) as [Hf Hl].
  rewrite Hf, Hl, load_model_eq, (cached_load_outcome _ _ _ _ E).
  split; [reflexivity | apply replay_no_calls].
Qed.

Lemma subgrade_run_when_cached (ui : AppSubgrade.widgets) (w : world) (p : process) :
  resource_cache p <> None ->
  final (AppSubgrade.main ui w p) = p /\
  loads (trace (AppSubgrade.main ui w p)) = [].
Proof.
  intros Hc. destruct (resource_cache p) as [entry|] eqn:E; [|congruence].
  destruct (subgrade_main_loader ui w p) as [Hf Hl].
  rewrite Hf, Hl, load_model_eq, (cached_load_outcome _ _ _ _ E).
  split; [reflexivity | apply replay_no_calls].
Qed.

(** X1. Over any session of appbase.py or appsubgrade.py that starts with
    nothing cached, [joblib.load] is called exactly once, in the first
    run, on the script's own artifact; the state the process ends in is
    decided by that first call alone (the estimator it returned, or the
    unavailable state), whatever the later runs and worlds are.  A session
    that starts with the estimator cached keeps it and never calls
    [joblib.load]. *)
Theorem artifact_is_loaded_once_per_process :
  (forall (w : world) (ui : AppBase.widgets) (rest : list (world * AppBase.widgets)),
      session_loads (snd (session AppBase.main fresh ((w, ui) :: rest))) =
        [AppBase.pkl] /\
      fst (session AppBase.main fresh ((w, ui) :: rest)) =
        match joblib_load_result w AppBase.pkl with
        | inr m => ready m
        | inl e => unavailable AppBase.pkl e
        end) /\
  (forall (w : world) (ui : AppSubgrade.widgets)
          (rest : list (world * AppSubgrade.widgets)),
      session_loads (snd (session AppSubgrade.main fresh ((w, ui) :: rest))) =
        [AppSubgrade.pkl] /\
      fst (session AppSubgrade.main fresh ((w, ui) :: rest)) =
        match joblib_load_result w AppSubgrade.pkl with
        | inr m => ready m
        | inl e => unavailable AppSubgrade.pkl e
        end) /\
  (forall (m : Model) (runs : list (world * AppBase.widgets)),
      fst (session AppBase.main (ready m) runs) = ready m /\
      session_loads (snd (session AppBase.main (ready m) runs)) = []) /\
  (forall (m : Model) (runs : list (world * AppSubgrade.widgets)),
      fst (session AppSubgrade.main (ready m) runs) = ready m /\
      session_loads (snd (session AppSubgrade.main (ready m) runs)) = []).
Proof.
  split; [|split; [|split]].
  - intros w ui rest. cbn [session].
    destruct (base_main_loader ui w fresh) as [Hf Hl].
    rewrite load_model_eq, fresh_load_outcome in Hf, Hl.
    destruct (AppBase.main ui w fresh) as [[p1 t] r].
    unfold final, trace in Hf, Hl. cbn [fst snd] in Hf, Hl.
    assert (Hq : fst (session AppBase.main p1 rest) = p1 /\
                 session_loads (snd (session AppBase.main p1 rest)) = []).
    { apply session_quiet. intros w' ui'. apply base_run_when_cached.
      subst p1. destruct (joblib_load_result w AppBase.pkl); discriminate. }
    destruct (session AppBase.main p1 rest) as [p2 rs]. cbn [fst snd] in *.
    destruct Hq as [Hp2 Hq]. rewrite session_loads_cons, Hl, Hq, Hp2, Hf.
    destruct (joblib_load_result w AppBase.pkl); split; reflexivity.
  - intros w ui rest. cbn [session].
    destruct (subgrade_main_loader ui w fresh) as [Hf Hl].
    rewrite load_model_eq, fresh_load_outcome in Hf, Hl.
    destruct (AppSubgrade.main ui w fresh) as [[p1 t] r].
    unfold final, trace in Hf, Hl. cbn [fst snd] in Hf, Hl.
    assert (Hq : fst (session AppSubgrade.main p1 rest) = p1 /\
                 session_loads (snd (session AppSubgrade.main p1 rest)) = []).
    { apply session_quiet. intros w' ui'. apply subgrade_run_when_cached.
      subst p1. destruct (joblib_load_result w AppSubgrade.pkl); discriminate. }
    destruct (session AppSubgrade.main p1 rest) as [p2 rs]. cbn [fst snd] in *.
    destruct Hq as [Hp2 Hq]. rewrite session_loads_cons, Hl, Hq, Hp2, Hf.
    destruct (joblib_load_result w AppSubgrade.pkl); split; reflexivity.
  - intros m runs. apply session_quiet. intros w ui.
    apply base_run_when_cached. discriminate.
  - intros m runs. apply session_quiet. intros w ui.
    apply subgrade_run_when_cached. discriminate.
Qed.

(** X2. Once the loader's result is cached, a run of appbase.py or
    appsubgrade.py does not look at the disk: with the same widget values
    it does the same in every world, and it leaves the process as it
    found it.  A replaced, repaired or deleted artifact is therefore not
    noticed for the rest of the process. *)
Theorem cached_run_ignores_the_disk :
  (forall (ui : AppBase.widgets) (w w' : world) (p : process),
      resource_cache p <> None ->
      AppBase.main ui w p = AppBase.main ui w' p /\
      final (AppBase.main ui w p) = p) /\
  (forall (ui : AppSubgrade.widgets) (w w' : world) (p : process),
      resource_cache p <> None ->
      AppSubgrade.main ui w p = AppSubgrade.main ui w' p /\
      final (AppSubgrade.main ui w p) = p).
Proof.
  split.
  - intros ui w w' p Hc.
    split; [|apply base_run_when_cached, Hc].
    destruct (resource_cache p) as [entry|] eqn:E; [|congruence].
    destruct (AppBase.aashto_encoding !! AppBase.aashto_class_text ui)
      as [n|] eqn:En.
    + rewrite !(base_main_eq ui n _ p En), !(cached_load_outcome _ _ _ _ E).
      reflexivity.
    + rewrite !(base_main_keyerror ui _ p En), !(cached_load_outcome _ _ _ _ E).
      reflexivity.
  - intros ui w w' p Hc.
    split; [|apply subgrade_run_when_cached, Hc].
    destruct (resource_cache p) as [entry|] eqn:E; [|congruence].
    rewrite !subgrade_main_eq, !(cached_load_outcome _ _ _ _ E). reflexivity.
Qed.

Lemma cached_run_ignores_the_disk_witness :
  AppBase.main Scenario.base_inputs (Scenario.artifact Scenario.base_estimator)
    (unavailable AppBase.pkl (Py.Exn "FileNotFoundError" AppBase.pkl)) =
  AppBase.main Scenario.base_inputs Scenario.artifact_absent
    (unavailable AppBase.pkl (Py.Exn "FileNotFoundError" AppBase.pkl)) /\
  final (AppBase.main Scenario.base_inputs
           (Scenario.artifact Scenario.base_estimator)
           (unavailable AppBase.pkl (Py.Exn "FileNotFoundError" AppBase.pkl))) =
    unavailable AppBase.pkl (Py.Exn "FileNotFoundError" AppBase.pkl).
Proof.
  apply (proj1 cached_run_ignores_the_disk). discriminate.
Defined.

(** ** The estimator call *)

Lemma load_model_outcome (pkl : string) (w : world) (p : process) :
  outcome (Common.load_model pkl w p) = inr (snd (load_outcome pkl w p)).
Proof. rewrite load_model_eq. reflexivity. Qed.

Lemma no_predict_in_loader (pkl : string) (w : world) (p : process) :
  predict_calls (snd (fst (load_outcome pkl w p))) = [].
Proof. apply load_outcome_no_frames. Qed.

Lemma predict_calls_in_panel pkl model df filled click :
  predict_calls (panel_trace pkl model df filled click) =
  match model with
  | Some _ => if filled && click then [df] else []
  | None => []
  end.
Proof.
  unfold panel_trace.
  destruct filled, click, model as [m|]; try reflexivity.
  cbn. destruct (predict m df) as [e|[|x a]]; reflexivity.
Qed.

(** X3. A run of appbase.py or appsubgrade.py calls [predict] at most
    once, and exactly when the loader handed it an estimator, the gate
    accepted and the button was pressed; the argument is then the frame
    built in that run.  This holds from every process state and in every
    world. *)
Theorem predict_is_called_exactly_on_an_accepted_press :
  (forall (ui : AppBase.widgets) (w : world) (p : process) (n : Z),
      Py.getitem AppBase.aashto_encoding (AppBase.aashto_class_text ui) = inr n ->
      predict_calls (trace (AppBase.main ui w p)) =
        match outcome (Common.load_model AppBase.pkl w p) with
        | inr (Some _) =>
            if AppBase.all_inputs_filled ui && AppBase.clicked ui
            then [AppBase.input_data ui n] else []
        | _ => []
        end) /\
  (forall (ui : AppSubgrade.widgets) (w : world) (p : process),
      predict_calls (trace (AppSubgrade.main ui w p)) =
        match outcome (Common.load_model AppSubgrade.pkl w p) with
        | inr (Some _) =>
            if AppSubgrade.all_inputs_filled ui && AppSubgrade.clicked ui
            then [AppSubgrade.input_data ui] else []
        | _ => []
        end).
Proof.
  split.
  - intros ui w p n Hn. apply getitem_inr in Hn.
    rewrite (base_main_eq ui n w p Hn), load_model_outcome.
    unfold trace. cbn [fst snd].
    rewrite predict_calls_app, no_predict_in_loader. cbn.
    apply predict_calls_in_panel.
  - intros ui w p.
    rewrite subgrade_main_eq, load_model_outcome.
    unfold trace. cbn [fst snd].
    rewrite predict_calls_app, no_predict_in_loader. cbn.
    apply predict_calls_in_panel.
Qed.

Lemma predict_is_called_exactly_on_an_accepted_press_witness :
  predict_calls
    (trace (AppBase.main Scenario.base_inputs
              (Scenario.artifact Scenario.base_estimator) fresh)) =
  [AppBase.input_data Scenario.base_inputs 6].
Proof.
  apply (proj1 predict_is_called_exactly_on_an_accepted_press
           Scenario.base_inputs (Scenario.artifact Scenario.base_estimator)
           fresh 6%Z eq_refl).
Defined.

(** X4. When the loader hands an estimator to a run of appbase.py or
    appsubgrade.py, the gate accepts, the button is pressed and [predict]
    returns a non-empty array, the run ends normally and does, after the
    loader, exactly this: it builds the frame, renders the button, calls
    [predict] on the frame, and renders the balloons, the success message,
    the first element of the array as the predicted modulus, and the
    summary of the very frame it predicted from.  The other elements of
    the array are ignored. *)
Theorem successful_prediction_shows_first_element :
  (forall (m : Model) (ui : AppBase.widgets) (w : world) (p : process) (n : Z)
          (x : float) (rest : list float),
      outcome (Common.load_model AppBase.pkl w p) = inr (Some m) ->
      Py.getitem AppBase.aashto_encoding (AppBase.aashto_class_text ui) = inr n ->
      AppBase.all_inputs_filled ui = true ->
      AppBase.clicked ui = true ->
      predict m (AppBase.input_data ui n) = inr (x :: rest) ->
      outcome (AppBase.main ui w p) = inr tt /\
      trace (AppBase.main ui w p) =
        trace (Common.load_model AppBase.pkl w p) ++
        [CallDataFrame (AppBase.input_data ui n);
         Render (St.button Common.predict_label false);
         CallPredict (AppBase.input_data ui n);
         Render St.balloons;
         Render (St.success [Py.FLit "### ✅ Prediction Successful!"]);
         Render (St.metric modulus_label [Py.FFloat2f x; Py.FLit " MPa"]);
         Render (St.expander "📋 View Input Summary");
         Render (St.dataframe_T (AppBase.input_data ui n))]) /\
  (forall (m : Model) (ui : AppSubgrade.widgets) (w : world) (p : process)
          (x : float) (rest : list float),
      outcome (Common.load_model AppSubgrade.pkl w p) = inr (Some m) ->
      AppSubgrade.all_inputs_filled ui = true ->
      AppSubgrade.clicked ui = true ->
      predict m (AppSubgrade.input_data ui) = inr (x :: rest) ->
      outcome (AppSubgrade.main ui w p) = inr tt /\
      trace (AppSubgrade.main ui w p) =
        trace (Common.load_model AppSubgrade.pkl w p) ++
        [CallDataFrame (AppSubgrade.input_data ui);
         Render (St.button Common.predict_label false);
         CallPredict (AppSubgrade.input_data ui);
         Render St.balloons;
         Render (St.success [Py.FLit "### ✅ Prediction Successful!"]);
         Render (St.metric modulus_label [Py.FFloat2f x; Py.FLit " MPa"]);
         Render (St.expander "📋 View Input Summary");
         Render (St.dataframe_T (AppSubgrade.input_data ui))]).
Proof.
  split.
  - intros m ui w p n x rest Hm Hn Hgate Hclick Hret.
    apply getitem_inr in Hn. rewrite load_model_outcome in Hm.
    injection Hm as Hm.
    rewrite (base_main_eq ui n w p Hn), load_model_trace, Hm.
    unfold trace, outcome, panel_trace. cbn [fst snd].
    rewrite Hgate, Hclick, Hret. split; reflexivity.
  - intros m ui w p x rest Hm Hgate Hclick Hret.
    rewrite load_model_outcome in Hm. injection Hm as Hm.
    rewrite subgrade_main_eq, load_model_trace, Hm.
    unfold trace, outcome, panel_trace. cbn [fst snd].
    rewrite Hgate, Hclick, Hret. split; reflexivity.
Qed.

Lemma successful_prediction_shows_first_element_witness :
  metrics modulus_label
    (trace (AppSubgrade.main (Scenario.subgrade_with_clay 0 true)
              (Scenario.artifact Scenario.subgrade_estimator) fresh)) =
  [[Py.FFloat2f 42; Py.FLit " MPa"]].
Proof.
  destruct (proj2 successful_prediction_shows_first_element
              Scenario.subgrade_estimator (Scenario.subgrade_with_clay 0 true)
              (Scenario.artifact Scenario.subgrade_estimator) fresh 42%py []
              eq_refl eq_refl eq_refl eq_refl) as [_ Ht].
  rewrite Ht. reflexivity.
Defined.

(** X5. An estimator that returns an empty array does not stop the run
    and shows no prediction: indexing the array raises inside the [try],
    so the run renders the "Prediction error" message with that
    IndexError and the advice on feature names, and neither the balloons
    nor the success message. *)
Theorem empty_prediction_is_reported_as_error :
  (forall (m : Model) (ui : AppBase.widgets) (w : world) (p : process) (n : Z),
      outcome (Common.load_model AppBase.pkl w p) = inr (Some m) ->
      Py.getitem AppBase.aashto_encoding (AppBase.aashto_class_text ui) = inr n ->
      AppBase.all_inputs_filled ui = true ->
      AppBase.clicked ui = true ->
      predict m (AppBase.input_data ui n) = inr [] ->
      outcome (AppBase.main ui w p) = inr tt /\
      trace (AppBase.main ui w p) =
        trace (Common.load_model AppBase.pkl w p) ++
        [CallDataFrame (AppBase.input_data ui n);
         Render (St.button Common.predict_label false);
         CallPredict (AppBase.input_data ui n);
         Render (prediction_error
                   (Py.Exn "IndexError"
                      "index 0 is out of bounds for axis 0 with size 0"));
         Render check_features_warning]) /\
  (forall (m : Model) (ui : AppSubgrade.widgets) (w : world) (p : process),
      outcome (Common.load_model AppSubgrade.pkl w p) = inr (Some m) ->
      AppSubgrade.all_inputs_filled ui = true ->
      AppSubgrade.clicked ui = true ->
      predict m (AppSubgrade.input_data ui) = inr [] ->
      outcome (AppSubgrade.main ui w p) = inr tt /\
      trace (AppSubgrade.main ui w p) =
        trace (Common.load_model AppSubgrade.pkl w p) ++
        [CallDataFrame (AppSubgrade.input_data ui);
         Render (St.button Common.predict_label false);
         CallPredict (AppSubgrade.input_data ui);
         Render (prediction_error
                   (Py.Exn "IndexError"
                      "index 0 is out of bounds for axis 0 with size 0"));
         Render check_features_warning]).
Proof.
  split.
  - intros m ui w p n Hm Hn Hgate Hclick Hret.
    apply getitem_inr in Hn. rewrite load_model_outcome in Hm.
    injection Hm as Hm.
    rewrite (base_main_eq ui n w p Hn), load_model_trace, Hm.
    unfold trace, outcome, panel_trace. cbn [fst snd].
    rewrite Hgate, Hclick, Hret. split; reflexivity.
  - intros m ui w p Hm Hgate Hclick Hret.
    rewrite load_model_outcome in Hm. injection Hm as Hm.
    rewrite subgrade_main_eq, load_model_trace, Hm.
    unfold trace, outcome, panel_trace. cbn [fst snd].
    rewrite Hgate, Hclick, Hret. split; reflexivity.
Qed.

Lemma empty_prediction_is_reported_as_error_witness :
  outcome (AppBase.main Scenario.base_inputs Scenario.artifact_absent
             (ready silent_estimator)) = inr tt /\
  metrics modulus_label
    (trace (AppBase.main Scenario.base_inputs Scenario.artifact_absent
              (ready silent_estimator))) = [].
Proof.
  destruct (proj1 empty_prediction_is_reported_as_error
              silent_estimator Scenario.base_inputs Scenario.artifact_absent
              (ready silent_estimator) 6%Z
              eq_refl eq_refl eq_refl eq_refl eq_refl) as [Hout Ht].
  split; [exact Hout|]. rewrite Ht. reflexivity.
Defined.

(** ** Uncaught exceptions *)

Lemma demo_main_not_pressed (ui : AppBas11.widgets) (w : world) (p : process) :
  AppBas11.clicked ui = false ->
  AppBas11.main ui w p =
  (p, [Render (St.button AppBas11.predict_label false)], inr tt).
Proof.
  intros Hc. unfold AppBas11.main. unfold_script. rewrite Hc. reflexivity.
Qed.

(** X6. The only exception that can end a run of any of the three scripts
    is the KeyError of the class lookup in appbase.py: a run of appbase.py
    ends normally exactly when the selected label is one of its options,
    and runs of appsubgrade.py and of the demo always end normally,
    whatever the artifact, the estimator and the widgets do. *)
Theorem only_the_class_lookup_can_stop_a_run :
  (forall (ui : AppBase.widgets) (w : world) (p : process),
      outcome (AppBase.main ui w p) = inr tt <->
      AppBase.aashto_class_text ui ∈ AppBase.aashto_options) /\
  (forall (ui : AppBase.widgets) (w : world) (p : process),
      AppBase.aashto_class_text ui ∉ AppBase.aashto_options ->
      outcome (AppBase.main ui w p) =
        inl (Py.Exn "KeyError" (AppBase.aashto_class_text ui)) /\
      trace (AppBase.main ui w p) = trace (Common.load_model AppBase.pkl w p)) /\
  (forall (ui : AppSubgrade.widgets) (w : world) (p : process),
      outcome (AppSubgrade.main ui w p) = inr tt) /\
  (forall (ui : AppBas11.widgets) (w : world) (p : process),
      outcome (AppBas11.main ui w p) = inr tt).
Proof.
  assert (Hnone : forall label,
             label ∉ AppBase.aashto_options ->
             AppBase.aashto_encoding !! label = None).
  { intros label Hsel.
    destruct (AppBase.aashto_encoding !! label) as [n|] eqn:E; [|reflexivity].
    exfalso. apply Hsel. apply encoding_entries in E.
    unfold documented_codes in E. unfold AppBase.aashto_options.
    repeat (apply elem_of_cons in E as [E|E]; [injection E as -> _; in_list|]).
    inversion E. }
  split; [|split; [|split]].
  - intros ui w p. split.
    + intros Hout.
      destruct (decide (AppBase.aashto_class_text ui ∈ AppBase.aashto_options))
        as [Hsel|Hsel]; [exact Hsel|].
      rewrite (base_main_keyerror ui w p (Hnone _ Hsel)) in Hout.
      discriminate Hout.
    + intros Hsel. destruct (base_option_encoded _ Hsel) as (n & Hn & _).
      rewrite (base_main_eq ui n w p Hn). reflexivity.
  - intros ui w p Hsel.
    rewrite (base_main_keyerror ui w p (Hnone _ Hsel)), load_model_trace.
    split; reflexivity.
  - intros ui w p. rewrite subgrade_main_eq. reflexivity.
  - intros ui w p. destruct (AppBas11.clicked ui) eqn:Hc.
    + rewrite (demo_main_pressed ui w p Hc). reflexivity.
    + rewrite (demo_main_not_pressed ui w p Hc). reflexivity.
Qed.

Lemma only_the_class_lookup_can_stop_a_run_witness :
  outcome (AppBase.main (Scenario.base_with 150 "A-7-5" true)
             Scenario.artifact_absent fresh) =
    inl (Py.Exn "KeyError" "A-7-5") /\
  trace (AppBase.main (Scenario.base_with 150 "A-7-5" true)
           Scenario.artifact_absent fresh) =
    trace (Common.load_model AppBase.pkl Scenario.artifact_absent fresh).
Proof.
  apply (proj1 (proj2 only_the_class_lookup_can_stop_a_run)
           (Scenario.base_with 150 "A-7-5" true)).
  unfold AppBase.aashto_options. cbn. not_in_list.
Defined.

(** ** The encoding and the order of the options *)

(** X7. In appbase.py the code of a class is its position in the list of
    options: the i-th option (from 0) is encoded as i, and a label encoded
    as i is the i-th option.  Hence distinct labels never share a code,
    and the selected label can be read back from the code in the frame. *)
Theorem class_code_is_position_in_options :
  (forall (i : nat) (label : string),
      AppBase.aashto_options !! i = Some label <->
      Py.getitem AppBase.aashto_encoding label = inr (Z.of_nat i)) /\
  (forall (l1 l2 : string) (n : Z),
      Py.getitem AppBase.aashto_encoding l1 = inr n ->
      Py.getitem AppBase.aashto_encoding l2 = inr n ->
      l1 = l2).
Proof.
  assert (Hpos : forall (i : nat) (label : string),
             AppBase.aashto_options !! i = Some label <->
             AppBase.aashto_encoding !! label = Some (Z.of_nat i)).
  { intros i label. split.
    - intros H. unfold AppBase.aashto_options in H.
      do 10 (destruct i as [|i]; [injection H as <-; reflexivity|]).
      discriminate H.
    - intros H. apply encoding_entries in H. unfold documented_codes in H.
      repeat (apply elem_of_cons in H as [H|H];
              [ injection H as -> Hi;
                apply (f_equal Z.to_nat) in Hi; rewrite Nat2Z.id in Hi;
                subst i; reflexivity | ]).
      inversion H. }
  split.
  - intros i label. rewrite getitem_inr. apply Hpos.
  - intros l1 l2 n H1 H2. apply getitem_inr in H1, H2.
    assert (Hn : (0 <= n)%Z).
    { apply encoding_entries in H1. unfold documented_codes in H1.
      repeat (apply elem_of_cons in H1 as [H1|H1];
              [injection H1 as _ ->; lia|]).
      inversion H1. }
    rewrite <- (Z2Nat.id n Hn) in H1, H2.
    apply Hpos in H1, H2. congruence.
Qed.

Lemma class_code_is_position_in_options_witness :
  AppBase.aashto_options !! 5%nat = Some "A-3" /\ "A-3" = "A-3".
Proof.
  split.
  - apply (proj1 class_code_is_position_in_options 5%nat "A-3"). reflexivity.
  - apply (proj2 class_code_is_position_in_options "A-3" "A-3" 5%Z);
      reflexivity.
Defined.

(** ** The gates on values the widgets can hold *)

(** On a value of a widget whose minimum is 0, [> 0] says "not zero". *)
Lemma nonneg_gt_iff_nonzero (hi : option float) (x : float) :
  in_range 0 hi x = true -> (gt x 0 = true <-> SFeqb x 0 = false).
Proof.
  unfold in_range, gt. intros H. apply andb_true_iff in H as [H _].
  destruct x as [[]|[]| |[] m e]; cbn in *; split; congruence.
Qed.

Lemma nonneg_ge (hi : option float) (x : float) :
  in_range 0 hi x = true -> ge x 0 = true.
Proof.
  unfold in_range, ge. intros H. apply andb_true_iff in H as [H _]. exact H.
Qed.

(** A widget whose minimum is 1 or 2 only holds values above 0. *)
Lemma from_one_gt (hi : option float) (x : float) :
  in_range 1 hi x = true -> gt x 0 = true.
Proof.
  unfold in_range, gt. intros H. apply andb_true_iff in H as [H _].
  destruct x as [[]|[]| |[] m e]; try reflexivity; cbn in H; discriminate H.
Qed.

Lemma from_two_gt (hi : option float) (x : float) :
  in_range 2 hi x = true -> gt x 0 = true.
Proof.
  unfold in_range, gt. intros H. apply andb_true_iff in H as [H _].
  destruct x as [[]|[]| |[] m e]; try reflexivity; cbn in H; discriminate H.
Qed.

(** X8. On values the widgets can hold, the gates reject for one reason
    only, a zero in a field whose widget starts at 0: appbase.py accepts
    exactly when thickness, the five sieve percentages, liquid limit,
    plastic limit, optimum moisture and hydraulic conductivity are all
    non-zero, appsubgrade.py exactly when the five sieve percentages,
    optimum moisture, liquid limit and plastic limit are.  The comparisons
    on plasticity index, specific gravity, maximum dry density and on the
    four composition percentages can never fail there. *)
Theorem gates_reject_only_zero_fields :
  (forall ui : AppBase.widgets,
      AppBase.widgets_ok ui ->
      (AppBase.all_inputs_filled ui = true <->
       SFeqb (AppBase.layer_thickness ui) 0 = false /\
       SFeqb (AppBase.no_4_passing ui) 0 = false /\
       SFeqb (AppBase.no_10_passing ui) 0 = false /\
       SFeqb (AppBase.no_40_passing ui) 0 = false /\
       SFeqb (AppBase.no_80_passing ui) 0 = false /\
       SFeqb (AppBase.no_200_passing ui) 0 = false /\
       SFeqb (AppBase.liquid_limit ui) 0 = false /\
       SFeqb (AppBase.plastic_limit ui) 0 = false /\
       SFeqb (AppBase.optimum_lab_moisture ui) 0 = false /\
       SFeqb (AppBase.hydraulic_conductivity ui) 0 = false)) /\
  (forall ui : AppSubgrade.widgets,
      AppSubgrade.widgets_ok ui ->
      (AppSubgrade.all_inputs_filled ui = true <->
       SFeqb (AppSubgrade.no_4_passing ui) 0 = false /\
       SFeqb (AppSubgrade.no_10_passing ui) 0 = false /\
       SFeqb (AppSubgrade.no_40_passing ui) 0 = false /\
       SFeqb (AppSubgrade.no_80_passing ui) 0 = false /\
       SFeqb (AppSubgrade.no_200_passing ui) 0 = false /\
       SFeqb (AppSubgrade.optimum_lab_moisture ui) 0 = false /\
       SFeqb (AppSubgrade.liquid_limit ui) 0 = false /\
       SFeqb (AppSubgrade.plastic_limit ui) 0 = false)).
Proof.
  split.
  - intros ui (Ht & H4 & H10 & H40 & H80 & H200 & Hll & Hpl & Hpi & _ & Hg & Hd
               & Hm & Hk).
    unfold AppBase.all_inputs_filled. rewrite !andb_true_iff.
    rewrite (nonneg_gt_iff_nonzero _ _ Ht), (nonneg_gt_iff_nonzero _ _ H4),
      (nonneg_gt_iff_nonzero _ _ H10), (nonneg_gt_iff_nonzero _ _ H40),
      (nonneg_gt_iff_nonzero _ _ H80), (nonneg_gt_iff_nonzero _ _ H200),
      (nonneg_gt_iff_nonzero _ _ Hll), (nonneg_gt_iff_nonzero _ _ Hpl),
      (nonneg_gt_iff_nonzero _ _ Hm), (nonneg_gt_iff_nonzero _ _ Hk).
    pose proof (nonneg_ge _ _ Hpi). pose proof (from_two_gt _ _ Hg).
    pose proof (from_one_gt _ _ Hd). tauto.
  - intros ui (H4 & H10 & H40 & H80 & H200 & Hcs & Hfs & Hs & Hc & Hd & Hm
               & Hll & Hpl).
    unfold AppSubgrade.all_inputs_filled. rewrite !andb_true_iff.
    rewrite (nonneg_gt_iff_nonzero _ _ H4), (nonneg_gt_iff_nonzero _ _ H10),
      (nonneg_gt_iff_nonzero _ _ H40), (nonneg_gt_iff_nonzero _ _ H80),
      (nonneg_gt_iff_nonzero _ _ H200), (nonneg_gt_iff_nonzero _ _ Hm),
      (nonneg_gt_iff_nonzero _ _ Hll), (nonneg_gt_iff_nonzero _ _ Hpl).
    pose proof (nonneg_ge _ _ Hcs). pose proof (nonneg_ge _ _ Hfs).
    pose proof (nonneg_ge _ _ Hs). pose proof (nonneg_ge _ _ Hc).
    pose proof (from_one_gt _ _ Hd). tauto.
Qed.

Lemma gates_reject_only_zero_fields_witness :
  AppBase.all_inputs_filled (Scenario.base_with 0 "A-4" false) = true <->
  SFeqb (AppBase.layer_thickness (Scenario.base_with 0 "A-4" false)) 0 = false /\
  SFeqb (AppBase.no_4_passing (Scenario.base_with 0 "A-4" false)) 0 = false /\
  SFeqb (AppBase.no_10_passing (Scenario.base_with 0 "A-4" false)) 0 = false /\
  SFeqb (AppBase.no_40_passing (Scenario.base_with 0 "A-4" false)) 0 = false /\
  SFeqb (AppBase.no_80_passing (Scenario.base_with 0 "A-4" false)) 0 = false /\
  SFeqb (AppBase.no_200_passing (Scenario.base_with 0 "A-4" false)) 0 = false /\
  SFeqb (AppBase.liquid_limit (Scenario.base_with 0 "A-4" false)) 0 = false /\
  SFeqb (AppBase.plastic_limit (Scenario.base_with 0 "A-4" false)) 0 = false /\
  SFeqb (AppBase.optimum_lab_moisture (Scenario.base_with 0 "A-4" false)) 0 = false /\
  SFeqb (AppBase.hydraulic_conductivity (Scenario.base_with 0 "A-4" false)) 0 = false.
Proof.
  apply (proj1 gates_reject_only_zero_fields).
  unfold AppBase.widgets_ok, AppBase.aashto_options.
  repeat split; try reflexivity. in_list.
Defined.

(** ** The demo *)

(** X9. A run of the demo touches nothing outside itself: it leaves the
    process state as it is, never calls [joblib.load] or an estimator, and
    what it builds and shows depends on the widget values alone.  It
    builds its frame and shows a predicted modulus exactly when the button
    was pressed and the gate accepted; without a press it renders the
    button and nothing else. *)
Theorem demo_run_is_self_contained :
  forall (ui : AppBas11.widgets) (w : world) (p : process),
    final (AppBas11.main ui w p) = p /\
    loads (trace (AppBas11.main ui w p)) = [] /\
    predict_calls (trace (AppBas11.main ui w p)) = [] /\
    (forall (w' : world) (p' : process),
        trace (AppBas11.main ui w' p') = trace (AppBas11.main ui w p)) /\
    frames_built (trace (AppBas11.main ui w p)) =
      (if AppBas11.clicked ui && Py.all (AppBas11.collected ui)
       then [AppBas11.input_data ui] else []) /\
    metrics modulus_label (trace (AppBas11.main ui w p)) =
      (if AppBas11.clicked ui && Py.all (AppBas11.collected ui)
       then [[Py.FFloat2f (AppBas11.predicted_modulus ui); Py.FLit " MPa"]]
       else []) /\
    (AppBas11.clicked ui = false ->
     trace (AppBas11.main ui w p) =
       [Render (St.button AppBas11.predict_label false)]).
Proof.
  intros ui w p. destruct (AppBas11.clicked ui) eqn:Hc.
  - rewrite (demo_main_pressed ui w p Hc).
    unfold final, trace. cbn [fst snd andb].
    repeat split; try (intros; discriminate).
    + destruct (Py.all (AppBas11.collected ui)); reflexivity.
    + destruct (Py.all (AppBas11.collected ui)); reflexivity.
    + intros w' p'. rewrite (demo_main_pressed ui w' p' Hc). reflexivity.
    + destruct (Py.all (AppBas11.collected ui)); reflexivity.
    + destruct (Py.all (AppBas11.collected ui)); reflexivity.
  - rewrite (demo_main_not_pressed ui w p Hc).
    unfold final, trace. cbn [fst snd andb].
    repeat split.
    intros w' p'. rewrite (demo_main_not_pressed ui w' p' Hc). reflexivity.
Qed.

(** X10. On the same fourteen values, within the bounds of the demo's
    widgets, the demo's gate accepts exactly when the gate of appbase.py
    accepts and the plasticity index is not zero: a zero plasticity index
    is the only input on which the two gates disagree. *)
Theorem demo_gate_is_base_gate_and_nonzero_index :
  forall ui : AppBas11.widgets,
    AppBas11.widgets_ok ui ->
    (Py.all (AppBas11.collected ui) = true <->
     AppBase.all_inputs_filled (demo_as_base ui) = true /\
     SFeqb (AppBas11.plasticity_index ui) 0 = false).
Proof.
  intros ui (Ht & H4 & H10 & H40 & H80 & H200 & Hll & Hpl & Hpi & Hsel & Hg & Hd
             & Hm & Hk).
  assert (Hlabel : AppBas11.aashto_soil_class ui <> "").
  { intros E. rewrite E in Hsel. revert Hsel.
    unfold AppBas11.aashto_options. not_in_list. }
  rewrite all_true_iff. unfold AppBas11.collected.
  rewrite !Forall_cons, Forall_nil. cbn [Py.truthy].
  rewrite !negb_true_iff, String.eqb_neq.
  unfold AppBase.all_inputs_filled, demo_as_base.
  cbn [AppBase.layer_thickness AppBase.no_4_passing AppBase.no_10_passing
       AppBase.no_40_passing AppBase.no_80_passing AppBase.no_200_passing
       AppBase.liquid_limit AppBase.plastic_limit AppBase.plasticity_index
       AppBase.spec_gravity AppBase.max_lab_dry_density
       AppBase.optimum_lab_moisture AppBase.hydraulic_conductivity].
  rewrite !andb_true_iff.
  rewrite (nonneg_gt_iff_nonzero _ _ Ht), (nonneg_gt_iff_nonzero _ _ H4),
    (nonneg_gt_iff_nonzero _ _ H10), (nonneg_gt_iff_nonzero _ _ H40),
    (nonneg_gt_iff_nonzero _ _ H80), (nonneg_gt_iff_nonzero _ _ H200),
    (nonneg_gt_iff_nonzero _ _ Hll), (nonneg_gt_iff_nonzero _ _ Hpl),
    (nonneg_gt_iff_nonzero _ _ Hg), (nonneg_gt_iff_nonzero _ _ Hd),
    (nonneg_gt_iff_nonzero _ _ Hm), (nonneg_gt_iff_nonzero _ _ Hk).
  pose proof (nonneg_ge _ _ Hpi). tauto.
Qed.

Lemma demo_gate_is_base_gate_and_nonzero_index_witness :
  Py.all (AppBas11.collected (Scenario.demo_with 0 "A-7-5" Scenario.f_1e_7)) = true <->
  AppBase.all_inputs_filled
    (demo_as_base (Scenario.demo_with 0 "A-7-5" Scenario.f_1e_7)) = true /\
  SFeqb (AppBas11.plasticity_index
           (Scenario.demo_with 0 "A-7-5" Scenario.f_1e_7)) 0 = false.
Proof.
  apply demo_gate_is_base_gate_and_nonzero_index.
  unfold AppBas11.widgets_ok, AppBas11.aashto_options.
  repeat split; try reflexivity. in_list.
Defined.
